(** * welleng.survey: the survey data model, its construction pipeline,
      station interpolation and the covariance builder.

    A shallow embedding of [src/welleng/survey.py].

    - Numbers are Python floats, i.e. IEEE binary64: Rocq's primitive
      [float], with [PrimFloat.mul], [PrimFloat.leb], [PrimFloat.eqb], ...
    - One-dimensional numpy arrays are [list float]; an (n,3) array is a
      list of rows [vec3]; an (a,b,c) array is a nested list.
    - A [Survey] instance is a mutable Python object: instances live in a
      store and are addressed by location; a method runs on its instance.
      Arrays are values: survey.py updates no array in place.
    - Python exceptions are values of [exn]; every computation runs in the
      monad [ST], which threads a state (the instance for a method body,
      the store for module-level code) and a log of the calls made to the
      functions this module imports (welleng.utils, welleng.error,
      math.sin).
    - The imported functions themselves are not part of this module; they
      are the fields of the class [Externals], taken as total pure
      functions. *)

From Stdlib Require Import ZArith Floats String.
From stdpp Require Import base option list strings.

Local Open Scope Z_scope.

(** ** Numeric arrays *)

Abbreviation vec3 := (float * float * float)%type (only parsing).
Abbreviation array1 := (list float) (only parsing).
Abbreviation array2 := (list (float * float * float)) (only parsing).
Abbreviation array3 := (list (list (list float))) (only parsing).

Definition fzero : float := 0%float.

(** Python exceptions raised by the module and by the indexing and
    array-building operations it uses.  [NoSuchObject] is the model's own:
    a location outside the store, which no Python reference can be. *)
Inductive exn : Type :=
  | AssertionError (msg : string)
  | IndexError
  | ValueError
  | TypeError
  | NoSuchObject.

(** The failure kinds of the specification are the three assertions. *)
Definition InvalidConfiguration : exn := AssertionError "Unrecognized error model".
Definition IndexOutOfRange : exn := AssertionError "Index is out of range".
Definition OutOfRange : exn := AssertionError "x is out of range".

Inductive result (A : Type) : Type :=
  | Ok (a : A)
  | Err (e : exn).
Arguments Ok {A} a.
Arguments Err {A} e.

#[global] Instance result_ret : MRet result := fun A a => Ok a.
#[global] Instance result_bind : MBind result :=
  fun A B f m => match m with Ok a => f a | Err e => Err e end.

(** [l[i]] with Python's negative indices; [None] is an IndexError. *)
Definition py_index {A : Type} (l : list A) (i : Z) : option A :=
  let len := Z.of_nat (length l) in
  if 0 <=? i then l !! Z.to_nat i
  else if - len <=? i then l !! Z.to_nat (len + i)
  else None.

(** Element-wise product of two one-dimensional arrays, with numpy's
    broadcasting of a length-1 operand; other length mismatches raise. *)
Definition arr_mul (a b : array1) : result array1 :=
  match a, b with
  | [s], _ => Ok (map (PrimFloat.mul s) b)
  | _, [s] => Ok (map (fun u => PrimFloat.mul u s) a)
  | _, _ =>
      if Nat.eqb (length a) (length b)
      then Ok (zip_with PrimFloat.mul a b)
      else Err ValueError
  end.

(** An argument of [make_cov], "list or array of floats" (lines 279-284):
    a Python list or a one-dimensional numpy array. *)
Inductive array_like : Type :=
  | PyList (v : list float)
  | NdArray (v : list float).

Definition values (a : array_like) : array1 :=
  match a with
  | PyList v => v
  | NdArray v => v
  end.

(** [a * b] on such arguments.  With an array on either side it is numpy's
    element-wise product, a list operand being converted to an array;
    between two Python lists [*] is sequence repetition, which wants an
    integer: a TypeError. *)
Definition py_mul (a b : array_like) : result array1 :=
  match a, b with
  | PyList _, PyList _ => Err TypeError
  | _, _ => arr_mul (values a) (values b)
  end.

(** [np.zeros_like(np.array([a]).reshape(-1))] for a one-dimensional [a]. *)
Definition zeros_like (a : array1) : array1 := map (fun _ => fzero) a.

(** [np.array([[..],[..],[..]])] of one-dimensional arrays: the entries
    must all have one length. *)
Definition same_length (len : nat) (rows : list (list array1)) : bool :=
  forallb (forallb (fun v => Nat.eqb (length v) len)) rows.

Definition np_array3 (rows : list (list array1)) : result array3 :=
  let len := length (List.hd [] (List.hd [] rows)) in
  if same_length len rows then Ok rows else Err ValueError.

(** [a.T] of a three-dimensional array reverses the axes:
    [a.T[k][j][i] = a[i][j][k]], shape (p,q,r) to (r,q,p). *)
Definition at3 (a : array3) (i j k : nat) : float :=
  List.nth k (List.nth j (List.nth i a []) []) fzero.

Definition T3 (a : array3) : array3 :=
  let p := length a in
  let q := length (List.hd [] a) in
  let r := length (List.hd [] (List.hd [] a)) in
  map (fun k => map (fun j => map (fun i => at3 a i j k) (seq 0 p)) (seq 0 q))
      (seq 0 r).

(** An array of shape (p,q,r). *)
Definition has_shape (p q r : nat) (a : array3) : bool :=
  Nat.eqb (length a) p &&
  forallb (fun m => Nat.eqb (length m) q &&
                    forallb (fun v => Nat.eqb (length v) r) m) a.

(** [a[i][j][k]]; [None] outside the array. *)
Definition entry (a : array3) (i j k : nat) : option float :=
  match a !! i with
  | Some m => match m !! j with
              | Some v => v !! k
              | None => None
              end
  | None => None
  end.

(** [np.array([c0, c1, c2]).T] of three columns: an (n,3) array.  A column
    that is [None], or columns of different lengths, do not form one. *)
Fixpoint zip3 (c0 c1 c2 : array1) : array2 :=
  match c0, c1, c2 with
  | u :: c0', v :: c1', w :: c2' => (u, v, w) :: zip3 c0' c1' c2'
  | _, _, _ => []
  end.

Definition stack3 (c0 c1 c2 : array1) : result array2 :=
  if Nat.eqb (length c0) (length c1) && Nat.eqb (length c1) (length c2)
  then Ok (zip3 c0 c1 c2)
  else Err ValueError.

Definition stack3_opt (c0 c1 c2 : option array1) : result array2 :=
  match c0, c1, c2 with
  | Some u, Some v, Some w => stack3 u v w
  | _, _, _ => Err ValueError
  end.

(** [c0, c1, c2 = rows.T] of an (n,3) array. *)
Definition col0 (rows : array2) : array1 := map (fun r => r.1.1) rows.
Definition col1 (rows : array2) : array1 := map (fun r => r.1.2) rows.
Definition col2 (rows : array2) : array1 := map (fun r => r.2) rows.

Definition unstack3 (rows : array2) : array1 * array1 * array1 :=
  (col0 rows, col1 rows, col2 rows).

(** [s * v] and [u + v] on rows. *)
Definition scale (s : float) (v : vec3) : vec3 :=
  (PrimFloat.mul s v.1.1, PrimFloat.mul s v.1.2, PrimFloat.mul s v.2).

Definition vadd (u v : vec3) : vec3 :=
  (PrimFloat.add u.1.1 v.1.1, PrimFloat.add u.1.2 v.1.2, PrimFloat.add u.2 v.2).

(** ** The imported collaborators *)

Module MinCurve.
(** The attributes of a [MinCurve] object that the survey reads. *)
Record t : Type := {
  dogleg : array1;
  rf : array1;
  delta_md : array1;
  dls : array1;
  poss : array2
}.
End MinCurve.

Module ErrorModel.
(** The attributes of an [ErrorModel] object that the survey reads:
    covariances in axis-major layout, shape (3,3,n). *)
Record t : Type := {
  cov_HLAs : array3;
  cov_NEVs : array3
}.
End ErrorModel.

(** [well_ref_params] is forwarded untouched; a dictionary of named values. *)
Abbreviation well_ref := (list (string * float)) (only parsing).

Class Externals : Type := {
  (** math.sin, np.radians and np.degrees (the latter two element-wise) *)
  sin : float -> float;
  np_radians : float -> float;
  np_degrees : float -> float;
  (** welleng.utils *)
  MinCurve : array1 -> array1 -> array1 -> vec3 -> string -> MinCurve.t;
  get_nev : array2 -> vec3 -> vec3 -> array2;
  get_vec : array1 -> array1 -> bool -> array2;
  get_angles : vec3 -> list (float * float);
  (** welleng.error *)
  ErrorModel : array2 -> vec3 -> option well_ref -> ErrorModel.t
}.

Inductive event : Type :=
  | CallMinCurve
  | CallGetNev
  | CallGetVec
  | CallGetAngles
  | CallErrorModel
  | CallSin.

#[global] Instance event_eq_dec : EqDecision event.
Proof. solve_decision. Defined.

(** ** The Survey object *)

Module Survey.
(** The attributes of a [Survey] instance.  Attributes that may hold
    [None] are options. *)
Record t : Type := {
  unit : string;
  deg : bool;
  start_xyz : vec3;
  start_nev : vec3;
  md : array1;
  inc_rad : array1;
  azi_rad : array1;
  inc_deg : array1;
  azi_deg : array1;
  radius : option array1;
  survey_deg : array2;
  survey_rad : array2;
  n : option array1;
  e : option array1;
  tvd : option array1;
  x : option array1;
  y : option array1;
  z : option array1;
  vec : option array2;
  dogleg : array1;
  rf : array1;
  delta_md : array1;
  dls : array1;
  error_model : option string;
  well_ref_params : option well_ref;
  cov_hla : option array3;
  cov_nev : option array3;
  err : option ErrorModel.t
}.

(** A freshly allocated instance, before [__init__] has assigned
    anything; no attribute of it is read before it is assigned. *)
Definition blank : t :=
  {| unit := EmptyString; deg := false;
     start_xyz := (fzero, fzero, fzero); start_nev := (fzero, fzero, fzero);
     md := []; inc_rad := []; azi_rad := []; inc_deg := []; azi_deg := [];
     radius := None; survey_deg := []; survey_rad := [];
     n := None; e := None; tvd := None; x := None; y := None; z := None;
     vec := None; dogleg := []; rf := []; delta_md := []; dls := [];
     error_model := None; well_ref_params := None;
     cov_hla := None; cov_nev := None; err := None |}.

(** Attribute assignments [self.f = v], grouped as the source groups
    them. *)

(** Lines 56-60. *)
Definition set_frame v_unit v_deg v_start_xyz v_start_nev v_md (s : t) : t :=
  {| unit := v_unit; deg := v_deg; start_xyz := v_start_xyz;
     start_nev := v_start_nev; md := v_md; inc_rad := inc_rad s;
     azi_rad := azi_rad s; inc_deg := inc_deg s; azi_deg := azi_deg s;
     radius := radius s; survey_deg := survey_deg s;
     survey_rad := survey_rad s; n := n s; e := e s; tvd := tvd s;
     x := x s; y := y s; z := z s; vec := vec s; dogleg := dogleg s;
     rf := rf s; delta_md := delta_md s; dls := dls s;
     error_model := error_model s; well_ref_params := well_ref_params s;
     cov_hla := cov_hla s; cov_nev := cov_nev s; err := err s |}.

(** Lines 125-128 and 130-133. *)
Definition set_angles v_inc_rad v_azi_rad v_inc_deg v_azi_deg (s : t) : t :=
  {| unit := unit s; deg := deg s; start_xyz := start_xyz s;
     start_nev := start_nev s; md := md s; inc_rad := v_inc_rad;
     azi_rad := v_azi_rad; inc_deg := v_inc_deg; azi_deg := v_azi_deg;
     radius := radius s; survey_deg := survey_deg s;
     survey_rad := survey_rad s; n := n s; e := e s; tvd := tvd s;
     x := x s; y := y s; z := z s; vec := vec s; dogleg := dogleg s;
     rf := rf s; delta_md := delta_md s; dls := dls s;
     error_model := error_model s; well_ref_params := well_ref_params s;
     cov_hla := cov_hla s; cov_nev := cov_nev s; err := err s |}.

(** Line 62. *)
Definition set_radius v_radius (s : t) : t :=
  {| unit := unit s; deg := deg s; start_xyz := start_xyz s;
     start_nev := start_nev s; md := md s; inc_rad := inc_rad s;
     azi_rad := azi_rad s; inc_deg := inc_deg s; azi_deg := azi_deg s;
     radius := v_radius; survey_deg := survey_deg s;
     survey_rad := survey_rad s; n := n s; e := e s; tvd := tvd s;
     x := x s; y := y s; z := z s; vec := vec s; dogleg := dogleg s;
     rf := rf s; delta_md := delta_md s; dls := dls s;
     error_model := error_model s; well_ref_params := well_ref_params s;
     cov_hla := cov_hla s; cov_nev := cov_nev s; err := err s |}.

(** Lines 64-65. *)
Definition set_tables v_survey_deg v_survey_rad (s : t) : t :=
  {| unit := unit s; deg := deg s; start_xyz := start_xyz s;
     start_nev := start_nev s; md := md s; inc_rad := inc_rad s;
     azi_rad := azi_rad s; inc_deg := inc_deg s; azi_deg := azi_deg s;
     radius := radius s; survey_deg := v_survey_deg;
     survey_rad := v_survey_rad; n := n s; e := e s; tvd := tvd s;
     x := x s; y := y s; z := z s; vec := vec s; dogleg := dogleg s;
     rf := rf s; delta_md := delta_md s; dls := dls s;
     error_model := error_model s; well_ref_params := well_ref_params s;
     cov_hla := cov_hla s; cov_nev := cov_nev s; err := err s |}.

(** Lines 67-73. *)
Definition set_overrides v_n v_e v_tvd v_x v_y v_z v_vec (s : t) : t :=
  {| unit := unit s; deg := deg s; start_xyz := start_xyz s;
     start_nev := start_nev s; md := md s; inc_rad := inc_rad s;
     azi_rad := azi_rad s; inc_deg := inc_deg s; azi_deg := azi_deg s;
     radius := radius s; survey_deg := survey_deg s;
     survey_rad := survey_rad s; n := v_n; e := v_e; tvd := v_tvd;
     x := v_x; y := v_y; z := v_z; vec := v_vec; dogleg := dogleg s;
     rf := rf s; delta_md := delta_md s; dls := dls s;
     error_model := error_model s; well_ref_params := well_ref_params s;
     cov_hla := cov_hla s; cov_nev := cov_nev s; err := err s |}.

(** Lines 101-104. *)
Definition set_geometry v_dogleg v_rf v_delta_md v_dls (s : t) : t :=
  {| unit := unit s; deg := deg s; start_xyz := start_xyz s;
     start_nev := start_nev s; md := md s; inc_rad := inc_rad s;
     azi_rad := azi_rad s; inc_deg := inc_deg s; azi_deg := azi_deg s;
     radius := radius s; survey_deg := survey_deg s;
     survey_rad := survey_rad s; n := n s; e := e s; tvd := tvd s;
     x := x s; y := y s; z := z s; vec := vec s; dogleg := v_dogleg;
     rf := v_rf; delta_md := v_delta_md; dls := v_dls;
     error_model := error_model s; well_ref_params := well_ref_params s;
     cov_hla := cov_hla s; cov_nev := cov_nev s; err := err s |}.

(** Line 106. *)
Definition set_xyz v_x v_y v_z (s : t) : t :=
  {| unit := unit s; deg := deg s; start_xyz := start_xyz s;
     start_nev := start_nev s; md := md s; inc_rad := inc_rad s;
     azi_rad := azi_rad s; inc_deg := inc_deg s; azi_deg := azi_deg s;
     radius := radius s; survey_deg := survey_deg s;
     survey_rad := survey_rad s; n := n s; e := e s; tvd := tvd s;
     x := v_x; y := v_y; z := v_z; vec := vec s; dogleg := dogleg s;
     rf := rf s; delta_md := delta_md s; dls := dls s;
     error_model := error_model s; well_ref_params := well_ref_params s;
     cov_hla := cov_hla s; cov_nev := cov_nev s; err := err s |}.

(** Line 113. *)
Definition set_nev v_n v_e v_tvd (s : t) : t :=
  {| unit := unit s; deg := deg s; start_xyz := start_xyz s;
     start_nev := start_nev s; md := md s; inc_rad := inc_rad s;
     azi_rad := azi_rad s; inc_deg := inc_deg s; azi_deg := azi_deg s;
     radius := radius s; survey_deg := survey_deg s;
     survey_rad := survey_rad s; n := v_n; e := v_e; tvd := v_tvd;
     x := x s; y := y s; z := z s; vec := vec s; dogleg := dogleg s;
     rf := rf s; delta_md := delta_md s; dls := dls s;
     error_model := error_model s; well_ref_params := well_ref_params s;
     cov_hla := cov_hla s; cov_nev := cov_nev s; err := err s |}.

(** Line 110. *)
Definition set_vec v_vec (s : t) : t :=
  {| unit := unit s; deg := deg s; start_xyz := start_xyz s;
     start_nev := start_nev s; md := md s; inc_rad := inc_rad s;
     azi_rad := azi_rad s; inc_deg := inc_deg s; azi_deg := azi_deg s;
     radius := radius s; survey_deg := survey_deg s;
     survey_rad := survey_rad s; n := n s; e := e s; tvd := tvd s;
     x := x s; y := y s; z := z s; vec := v_vec; dogleg := dogleg s;
     rf := rf s; delta_md := delta_md s; dls := dls s;
     error_model := error_model s; well_ref_params := well_ref_params s;
     cov_hla := cov_hla s; cov_nev := cov_nev s; err := err s |}.

(** Lines 81-92. *)
Definition set_error_inputs v_error_model v_well_ref_params v_cov_hla v_cov_nev
    (s : t) : t :=
  {| unit := unit s; deg := deg s; start_xyz := start_xyz s;
     start_nev := start_nev s; md := md s; inc_rad := inc_rad s;
     azi_rad := azi_rad s; inc_deg := inc_deg s; azi_deg := azi_deg s;
     radius := radius s; survey_deg := survey_deg s;
     survey_rad := survey_rad s; n := n s; e := e s; tvd := tvd s;
     x := x s; y := y s; z := z s; vec := vec s; dogleg := dogleg s;
     rf := rf s; delta_md := delta_md s; dls := dls s;
     error_model := v_error_model; well_ref_params := v_well_ref_params;
     cov_hla := v_cov_hla; cov_nev := v_cov_nev; err := err s |}.

(** Lines 138-148. *)
Definition set_errors v_err v_cov_hla v_cov_nev (s : t) : t :=
  {| unit := unit s; deg := deg s; start_xyz := start_xyz s;
     start_nev := start_nev s; md := md s; inc_rad := inc_rad s;
     azi_rad := azi_rad s; inc_deg := inc_deg s; azi_deg := azi_deg s;
     radius := radius s; survey_deg := survey_deg s;
     survey_rad := survey_rad s; n := n s; e := e s; tvd := tvd s;
     x := x s; y := y s; z := z s; vec := vec s; dogleg := dogleg s;
     rf := rf s; delta_md := delta_md s; dls := dls s;
     error_model := error_model s; well_ref_params := well_ref_params s;
     cov_hla := v_cov_hla; cov_nev := v_cov_nev; err := v_err |}.
End Survey.

(** The keyword arguments of [Survey(...)]. *)
Module Init.
Record args : Type := {
  md : array1;
  inc : array1;
  azi : array1;
  n : option array1;
  e : option array1;
  tvd : option array1;
  x : option array1;
  y : option array1;
  z : option array1;
  vec : option array2;
  radius : option array1;
  cov_nev : option array3;
  cov_hla : option array3;
  error_model : option string;
  well_ref_params : option well_ref;
  start_xyz : vec3;
  start_nev : vec3;
  deg : bool;
  unit : string
}.

(** The defaults of the signature, lines 21-42. *)
Definition defaults (v_md v_inc v_azi : array1) : args :=
  {| md := v_md; inc := v_inc; azi := v_azi;
     n := None; e := None; tvd := None; x := None; y := None; z := None;
     vec := None; radius := None; cov_nev := None; cov_hla := None;
     error_model := None; well_ref_params := None;
     start_xyz := (fzero, fzero, fzero); start_nev := (fzero, fzero, fzero);
     deg := true; unit := "meters" |}.
End Init.

(** ** The monad: state, call log and exceptions *)

(** A computation over a state [S]: it reads and updates the state,
    appends to the log of calls to imported functions, and returns a value
    or raises. *)
Definition ST (S A : Type) : Type :=
  S -> list event -> result A * S * list event.

#[global] Instance ST_ret (S : Type) : MRet (ST S) :=
  fun A a s tr => (Ok a, s, tr).
#[global] Instance ST_bind (S : Type) : MBind (ST S) :=
  fun A B f m s tr =>
    match m s tr with
    | (Ok a, s', tr') => f a s' tr'
    | (Err e, s', tr') => (Err e, s', tr')
    end.

Definition raise {S A : Type} (e : exn) : ST S A := fun s tr => (Err e, s, tr).

Definition lift {S A : Type} (r : result A) : ST S A := fun s tr => (r, s, tr).

(** [assert c, msg] *)
Definition py_assert {S : Type} (c : bool) (msg : string) : ST S () :=
  if c then mret () else raise (AssertionError msg).

(** A call of an imported function: its value, and an entry in the log. *)
Definition call {S A : Type} (ev : event) (v : A) : ST S A :=
  fun s tr => (Ok v, s, tr ++ [ev]).

(** [l[i]] *)
Definition getitem {S A : Type} (l : list A) (i : Z) : ST S A :=
  match py_index l i with
  | Some a => mret a
  | None => raise IndexError
  end.

(** Subscripting an attribute that may be [None]. *)
Definition subscriptable {S A : Type} (o : option A) : ST S A :=
  match o with
  | Some a => mret a
  | None => raise TypeError
  end.

(** [math.sin]: a ValueError on an infinite argument, the C function
    otherwise. *)
Definition math_sin `{Externals} {S : Type} (v : float) : ST S float :=
  if PrimFloat.is_infinity v then raise ValueError else call CallSin (sin v).

(** Truth value of an optional string: [None] and the empty string are
    false. *)
Definition truthy (o : option string) : bool :=
  match o with
  | Some s => negb (String.eqb s EmptyString)
  | None => false
  end.

Definition is_None {A : Type} (o : option A) : bool :=
  match o with
  | Some _ => false
  | None => true
  end.

(** A method body runs on its own instance: the state is [self]. *)
Definition Method (A : Type) : Type := ST Survey.t A.

Definition self : Method Survey.t := fun s tr => (Ok s, s, tr).

Definition assign (f : Survey.t -> Survey.t) : Method () :=
  fun s tr => (Ok (), f s, tr).

(** Module-level code runs on the store of all instances, addressed by
    location. *)
Definition loc : Type := nat.

Definition M (A : Type) : Type := ST (list Survey.t) A.

Definition alloc (s : Survey.t) : M loc :=
  fun st tr => (Ok (length st), st ++ [s], tr).

Definition get (l : loc) : M Survey.t :=
  fun st tr =>
    match st !! l with
    | Some s => (Ok s, st, tr)
    | None => (Err NoSuchObject, st, tr)
    end.

(** [obj.method(...)]: the method body runs on the instance at [l]. *)
Definition on {A : Type} (l : loc) (m : Method A) : M A :=
  fun st tr =>
    match st !! l with
    | Some s => let '(r, s', tr') := m s tr in (r, <[l := s']> st, tr')
    | None => (Err NoSuchObject, st, tr)
    end.

(** ** The construction pipeline (class Survey) *)

Section Pipeline.
Context `{Externals}.

(** Lines 123-133. *)
Definition _make_angles (inc azi : array1) (deg : bool) : Method () :=
  if deg then
    assign (Survey.set_angles (map np_radians inc) (map np_radians azi) inc azi)
  else
    assign (Survey.set_angles inc azi (map np_degrees inc) (map np_degrees azi)).

(** Lines 112-121. *)
Definition _get_nev : Method () :=
  s ← self;
  pos ← lift (stack3_opt (Survey.x s) (Survey.y s) (Survey.z s));
  nev ← call CallGetNev
          (get_nev pos (Survey.start_xyz s) (Survey.start_nev s));
  let '(n, e, tvd) := unstack3 nev in
  assign (Survey.set_nev (Some n) (Some e) (Some tvd)).

(** Lines 96-110. *)
Definition _min_curve : Method () :=
  s ← self;
  mc ← call CallMinCurve
         (MinCurve (Survey.md s) (Survey.inc_rad s) (Survey.azi_rad s)
                   (Survey.start_xyz s) (Survey.unit s));
  assign (Survey.set_geometry (MinCurve.dogleg mc) (MinCurve.rf mc)
                              (MinCurve.delta_md mc) (MinCurve.dls mc));;
  s ← self;
  (if is_None (Survey.x s) then
     let '(x, y, z) := unstack3 (MinCurve.poss mc) in
     assign (Survey.set_xyz (Some x) (Some y) (Some z))
   else mret ());;
  s ← self;
  (if is_None (Survey.n s) then _get_nev else mret ());;
  s ← self;
  if is_None (Survey.vec s) then
    v ← call CallGetVec (get_vec (Survey.inc_rad s) (Survey.azi_rad s) false);
    assign (Survey.set_vec (Some v))
  else mret ().

(** The single recognized error-model tag, lines 78 and 137. *)
Definition recognized : string := "ISCWSA_MWD".

(** Lines 135-149. *)
Definition _get_errors : Method () :=
  s ← self;
  if truthy (Survey.error_model s) then
    if bool_decide (Survey.error_model s = Some recognized) then
      err ← call CallErrorModel
              (ErrorModel (Survey.survey_deg s) (Survey.start_xyz s)
                          (Survey.well_ref_params s));
      assign (Survey.set_errors (Some err)
                (Some (T3 (ErrorModel.cov_HLAs err)))
                (Some (T3 (ErrorModel.cov_NEVs err))))
    else mret ()
  else mret ().

(** Lines 56-94. *)
Definition error_models : list string := [recognized].

Definition __init__ (a : Init.args) : Method () :=
  assign (Survey.set_frame (Init.unit a) (Init.deg a) (Init.start_xyz a)
                           (Init.start_nev a) (Init.md a));;
  _make_angles (Init.inc a) (Init.azi a) (Init.deg a);;
  assign (Survey.set_radius (Init.radius a));;
  s ← self;
  sd ← lift (stack3 (Survey.md s) (Survey.inc_deg s) (Survey.azi_deg s));
  sr ← lift (stack3 (Survey.md s) (Survey.inc_rad s) (Survey.azi_rad s));
  assign (Survey.set_tables sd sr);;
  assign (Survey.set_overrides (Init.n a) (Init.e a) (Init.tvd a)
                               (Init.x a) (Init.y a) (Init.z a) (Init.vec a));;
  _min_curve;;
  match Init.error_model a with
  | Some em =>
      py_assert (bool_decide (em ∈ error_models)) "Unrecognized error model"
  | None => mret ()
  end;;
  assign (Survey.set_error_inputs (Init.error_model a) (Init.well_ref_params a)
                                  (Init.cov_hla a) (Init.cov_nev a));;
  _get_errors.

(** [Survey(...)]: a new instance, then [__init__] on it. *)
Definition Survey (a : Init.args) : M loc :=
  l ← alloc Survey.blank;
  on l (__init__ a);;
  mret l.

(** ** Station interpolation, lines 208-271.  [index] is the integer
    [int(index)].  The attributes of [survey] are read from the instance as
    it is on entry: nothing is assigned to it in between. *)
Definition interpolate_survey (survey : loc) (x : float) (index : Z) : M loc :=
  sv ← get survey;
  py_assert (index <? Z.of_nat (length (Survey.md sv)) - 1)
            "Index is out of range";;
  d ← getitem (Survey.delta_md sv) (index + 1);
  py_assert (PrimFloat.leb x d) "x is out of range";;
  dl ← getitem (Survey.dogleg sv) (index + 1);
  '(inc, azi) ←
    (if PrimFloat.eqb dl fzero then
       azi ← getitem (Survey.azi_rad sv) index;
       inc ← getitem (Survey.inc_rad sv) index;
       mret (inc, azi)
     else
       vecs ← subscriptable (Survey.vec sv);
       t1 ← getitem vecs index;
       t2 ← getitem vecs (index + 1);
       total_dogleg ← getitem (Survey.dogleg sv) (index + 1);
       dl1 ← getitem (Survey.dogleg sv) (index + 1);
       dm ← getitem (Survey.delta_md sv) (index + 1);
       let dogleg := PrimFloat.mul x (PrimFloat.div dl1 dm) in
       s1 ← math_sin (PrimFloat.sub total_dogleg dogleg);
       s2 ← math_sin total_dogleg;
       s3 ← math_sin dogleg;
       s4 ← math_sin total_dogleg;
       let t := vadd (scale (PrimFloat.div s1 s2) t1)
                     (scale (PrimFloat.div s3 s4) t2) in
       angles ← call CallGetAngles (get_angles t);
       getitem angles 0);
  md0 ← getitem (Survey.md sv) index;
  md1 ← getitem (Survey.md sv) index;
  inc0 ← getitem (Survey.inc_rad sv) index;
  azi0 ← getitem (Survey.azi_rad sv) index;
  xyz ← lift (stack3_opt (Survey.x sv) (Survey.y sv) (Survey.z sv));
  start_xyz ← getitem xyz index;
  nev ← lift (stack3_opt (Survey.n sv) (Survey.e sv) (Survey.tvd sv));
  start_nev ← getitem nev index;
  s ← Survey
        {| Init.md := [md0; PrimFloat.add md1 x];
           Init.inc := [inc0; inc];
           Init.azi := [azi0; azi];
           Init.n := None; Init.e := None; Init.tvd := None;
           Init.x := None; Init.y := None; Init.z := None;
           Init.vec := None; Init.radius := None;
           Init.cov_nev := None; Init.cov_hla := None;
           Init.error_model := None; Init.well_ref_params := None;
           Init.start_xyz := start_xyz; Init.start_nev := start_nev;
           Init.deg := false; Init.unit := "meters" |};
  on s _min_curve;;
  mret s.
End Pipeline.

(** ** The covariance builder, lines 273-308.  Its arguments are lists or
    arrays; the products are evaluated in the order of the source. *)

Definition make_cov (a b c : array_like) (diag : bool) : result array3 :=
  if diag then
    let z := zeros_like (values a) in
    aa ← py_mul a a;
    bb ← py_mul b b;
    cc ← py_mul c c;
    cov ← np_array3 [[aa; z; z]; [z; bb; z]; [z; z; cc]];
    mret (T3 cov)
  else
    aa ← py_mul a a;
    ab ← py_mul a b;
    ac ← py_mul a c;
    ba ← py_mul a b;
    bb ← py_mul b b;
    bc ← py_mul b c;
    ca ← py_mul a c;
    cb ← py_mul b c;
    cc ← py_mul c c;
    cov ← np_array3 [[aa; ab; ac]; [ba; bb; bc]; [ca; cb; cc]];
    mret (T3 cov).

(** ** A collaborator instance for straight vertical holes *)

Module VerticalHole.
(** The bodies of welleng.utils and welleng.error are not part of
    survey.py.  The instance below follows the collaborator interfaces of
    section 6 of the specification on the example scenario of its section
    8, a vertical tangent hole; it serves to run the pipeline on concrete
    inputs. *)

(** The constant of [np.radians] and [np.degrees]. *)
Definition pi : float := 0x1.921fb54442d18p+1%float.

Fixpoint deltas (prev : float) (md : array1) : array1 :=
  match md with
  | [] => []
  | m :: md' => PrimFloat.sub m prev :: deltas m md'
  end.

(** Modelled from the spec: the body of [MinCurve], on a vertical hole.
    The dogleg and the dogleg severity of every interval are 0, the ratio
    factor is 1, delta-MD is the difference of consecutive measured
    depths (0 at the first station), and a station lies below the start
    by its measured depth past the first station. *)
Definition min_curve (md inc azi : array1) (start : vec3) (u : string)
  : MinCurve.t :=
  let md0 := List.hd fzero md in
  {| MinCurve.dogleg := map (fun _ => fzero) md;
     MinCurve.rf := map (fun _ => 1%float) md;
     MinCurve.delta_md := deltas md0 md;
     MinCurve.dls := map (fun _ => fzero) md;
     MinCurve.poss :=
       map (fun m => (start.1.1, start.1.2,
                      PrimFloat.add start.2 (PrimFloat.sub m md0))) md |}.

(** Modelled from the spec: the body of [get_nev], the translation of
    section 4.3 (x is East, y is North, z is vertical). *)
Definition nev_of (pos : array2) (sxyz snev : vec3) : array2 :=
  map (fun p =>
         (PrimFloat.add snev.1.1 (PrimFloat.sub p.1.2 sxyz.1.2),
          PrimFloat.add snev.1.2 (PrimFloat.sub p.1.1 sxyz.1.1),
          PrimFloat.add snev.2 (PrimFloat.sub p.2 sxyz.2))) pos.

(** Modelled from the spec: the body of [ErrorModel], here the null model:
    zero covariances in the axis-major layout (3,3,n) of section 6. *)
Definition null_model (survey : array2) (surface : vec3)
    (params : option well_ref) : ErrorModel.t :=
  let zs := map (fun _ => fzero) survey in
  {| ErrorModel.cov_HLAs := [[zs; zs; zs]; [zs; zs; zs]; [zs; zs; zs]];
     ErrorModel.cov_NEVs := [[zs; zs; zs]; [zs; zs; zs]; [zs; zs; zs]] |}.

(** Modelled from the spec: the imported functions on a vertical hole.
    Every tangent is (0,0,1) and every angle pair is (0,0); [sin] is never
    reached there (no interval is curved) and stands as the identity. *)
#[export] Instance externals : Externals :=
  {| sin := fun v => v;
     np_radians := fun v => PrimFloat.mul v (PrimFloat.div pi 180%float);
     np_degrees := fun v => PrimFloat.mul v (PrimFloat.div 180%float pi);
     MinCurve := min_curve;
     get_nev := nev_of;
     get_vec := fun inc azi deg => map (fun _ => (fzero, fzero, 1%float)) inc;
     get_angles := fun t => [(fzero, fzero)];
     ErrorModel := null_model |}.

(** The example of section 8: md = [0,100], inc = [0,0], azi = [0,0]. *)
Definition example_args : Init.args :=
  Init.defaults [0%float; 100%float] [0%float; 0%float] [0%float; 0%float].

(** The store after [survey = Survey(md=[0,100], inc=[0,0], azi=[0,0])]
    in an empty store: [survey] is location 0. *)
Definition example_store : list Survey.t := (Survey example_args [] []).1.2.

Definition example_survey : Survey.t :=
  default Survey.blank (example_store !! 0%nat).

(** The same well with some keyword arguments supplied. *)
Definition example_with (x y z n e tvd : option array1)
    (cov_nev cov_hla : option array3) (error_model : option string)
  : Init.args :=
  {| Init.md := [0%float; 100%float];
     Init.inc := [0%float; 0%float];
     Init.azi := [0%float; 0%float];
     Init.n := n; Init.e := e; Init.tvd := tvd;
     Init.x := x; Init.y := y; Init.z := z;
     Init.vec := None; Init.radius := None;
     Init.cov_nev := cov_nev; Init.cov_hla := cov_hla;
     Init.error_model := error_model; Init.well_ref_params := None;
     Init.start_xyz := (fzero, fzero, fzero);
     Init.start_nev := (fzero, fzero, fzero);
     Init.deg := true; Init.unit := "meters" |}.

Definition unit_cov : array3 :=
  [[[1%float; 0%float; 0%float]; [0%float; 1%float; 0%float];
    [0%float; 0%float; 1%float]];
   [[1%float; 0%float; 0%float]; [0%float; 1%float; 0%float];
    [0%float; 0%float; 1%float]]].

(** The runs used below: the survey of the example is at location 0. *)
Definition midpoint_run := interpolate_survey 0%nat 50%float 0 example_store [].

(** An unrecognized tag. *)
Definition unrecognized_args : Init.args :=
  example_with None None None None None None None None (Some "ISCWSA").

(** The recognized tag, with covariances supplied by the caller. *)
Definition recognized_args : Init.args :=
  example_with None None None None None None
               (Some unit_cov) (Some unit_cov) (Some "ISCWSA_MWD").

Definition recognized_run := Survey recognized_args [] [].

(** Positions supplied through [x] alone, NEV through [n] alone. *)
Definition override_args : Init.args :=
  example_with (Some [1%float; 2%float]) None None
               (Some [3%float; 4%float]) None None None None None.

Definition override_run := Survey override_args [] [].
End VerticalHole.

(** ** A collaborator instance with a telling error model *)

Module NumberedModel.
Import VerticalHole.

(** Modelled from the spec: the body of [ErrorModel] is not part of
    survey.py, and section 6 gives the layout of its covariances, (3,3,n),
    without a formula.  The stand-in below has that layout; its entry
    [i][j][k] is the number 100 i + 10 j + k past a base, so that every
    entry tells its own place and a transposition shows. *)
Definition numbered (base : Z) (n : nat) : array3 :=
  map (fun i =>
    map (fun j =>
      map (fun k =>
             PrimFloat.of_uint63
               (Uint63.of_Z (base + 100 * Z.of_nat i + 10 * Z.of_nat j
                             + Z.of_nat k)))
          (seq 0 n))
      (seq 0 3))
    (seq 0 3).

Definition numbered_model (survey : array2) (surface : vec3)
    (params : option well_ref) : ErrorModel.t :=
  {| ErrorModel.cov_HLAs := numbered 0 (length survey);
     ErrorModel.cov_NEVs := numbered 1000 (length survey) |}.

(** The imported functions of the vertical hole, with the numbered error
    model. *)
Definition numbered_externals : Externals :=
  {| sin := @sin VerticalHole.externals;
     np_radians := @np_radians VerticalHole.externals;
     np_degrees := @np_degrees VerticalHole.externals;
     MinCurve := min_curve;
     get_nev := nev_of;
     get_vec := @get_vec VerticalHole.externals;
     get_angles := @get_angles VerticalHole.externals;
     ErrorModel := numbered_model |}.

(** Construction with the recognized tag and covariances supplied by the
    caller, under the numbered error model. *)
Definition numbered_run := @Survey numbered_externals recognized_args [] [].
End NumberedModel.

(** ** Predicates used by the statements below *)

(** The attributes [_min_curve] never assigns. *)
Definition min_curve_frame (s s' : Survey.t) : Prop :=
  Survey.unit s' = Survey.unit s /\
  Survey.deg s' = Survey.deg s /\
  Survey.start_xyz s' = Survey.start_xyz s /\
  Survey.start_nev s' = Survey.start_nev s /\
  Survey.md s' = Survey.md s /\
  Survey.inc_rad s' = Survey.inc_rad s /\
  Survey.azi_rad s' = Survey.azi_rad s /\
  Survey.inc_deg s' = Survey.inc_deg s /\
  Survey.azi_deg s' = Survey.azi_deg s /\
  Survey.radius s' = Survey.radius s /\
  Survey.survey_deg s' = Survey.survey_deg s /\
  Survey.survey_rad s' = Survey.survey_rad s /\
  Survey.error_model s' = Survey.error_model s /\
  Survey.well_ref_params s' = Survey.well_ref_params s /\
  Survey.cov_hla s' = Survey.cov_hla s /\
  Survey.cov_nev s' = Survey.cov_nev s /\
  Survey.err s' = Survey.err s.

(** The output of the minimum-curvature solver on an instance's own data. *)
Definition solver_of `{Externals} (s : Survey.t) : MinCurve.t :=
  MinCurve (Survey.md s) (Survey.inc_rad s) (Survey.azi_rad s)
           (Survey.start_xyz s) (Survey.unit s).

(** The four angle arrays [_make_angles] stores for the arguments [a]:
    [inc_rad], [azi_rad], [inc_deg], [azi_deg]. *)
Definition angles_of `{Externals} (a : Init.args)
  : array1 * array1 * array1 * array1 :=
  if Init.deg a
  then (map np_radians (Init.inc a), map np_radians (Init.azi a),
        Init.inc a, Init.azi a)
  else (Init.inc a, Init.azi a,
        map np_degrees (Init.inc a), map np_degrees (Init.azi a)).

(** The [error_model] arguments the configuration check lets through. *)
Definition tag_ok (a : Init.args) : Prop :=
  Init.error_model a = None \/ Init.error_model a = Some recognized.

(** An instance whose per-station arrays have one length and whose
    positions and NEV coordinates are present. *)
Definition well_formed (sv : Survey.t) : Prop :=
  length (Survey.inc_rad sv) = length (Survey.md sv) /\
  length (Survey.azi_rad sv) = length (Survey.md sv) /\
  length (Survey.dogleg sv) = length (Survey.md sv) /\
  length (Survey.delta_md sv) = length (Survey.md sv) /\
  exists xyz nev,
    stack3_opt (Survey.x sv) (Survey.y sv) (Survey.z sv) = Ok xyz /\
    stack3_opt (Survey.n sv) (Survey.e sv) (Survey.tvd sv) = Ok nev /\
    length xyz = length (Survey.md sv) /\
    length nev = length (Survey.md sv).

(** The arguments under which every construction step before the
    error-model check succeeds: [md], [inc] and [azi] have one length,
    and supplied positions that must be projected form an (n,3) array. *)
Definition positional_inputs_ok (a : Init.args) : Prop :=
  length (Init.inc a) = length (Init.md a) /\
  length (Init.azi a) = length (Init.md a) /\
  (is_None (Init.n a) = true -> is_None (Init.x a) = false ->
   exists pos, stack3_opt (Init.x a) (Init.y a) (Init.z a) = Ok pos).

(** ** Definitions used by the further statements *)

(** The keyword arguments [interpolate_survey] passes to [Survey(...)],
    lines 261-268: two stations, angles in radians, the start at the
    position of the first one, every other argument at its default. *)
Definition station_pair (md0 x inc0 inc azi0 azi : float)
    (start_xyz start_nev : vec3) : Init.args :=
  {| Init.md := [md0; PrimFloat.add md0 x];
     Init.inc := [inc0; inc];
     Init.azi := [azi0; azi];
     Init.n := None; Init.e := None; Init.tvd := None;
     Init.x := None; Init.y := None; Init.z := None;
     Init.vec := None; Init.radius := None;
     Init.cov_nev := None; Init.cov_hla := None;
     Init.error_model := None; Init.well_ref_params := None;
     Init.start_xyz := start_xyz; Init.start_nev := start_nev;
     Init.deg := false; Init.unit := "meters" |}.

(** The dogleg swept from the station at [index] to the interpolated point,
    line 252: [x * (dogleg / delta_md)], the interval's own dogleg [dl]
    and delta-MD [d] given. *)
Definition partial_dogleg (x dl d : float) : float :=
  PrimFloat.mul x (PrimFloat.div dl d).

(** The tangent at the interpolated point, lines 254-257: the combination of
    the tangents [t1] and [t2] of the two stations with the sine weights of
    the swept and the remaining dogleg. *)
Definition interpolated_tangent `{Externals} (x dl d : float) (t1 t2 : vec3)
  : vec3 :=
  let dogleg := partial_dogleg x dl d in
  vadd (scale (PrimFloat.div (sin (PrimFloat.sub dl dogleg)) (sin dl)) t1)
       (scale (PrimFloat.div (sin dogleg) (sin dl)) t2).

(** The arguments [a] with the angles handed over in radians instead of
    degrees. *)
Definition in_radians `{Externals} (a : Init.args) : Init.args :=
  {| Init.md := Init.md a;
     Init.inc := map np_radians (Init.inc a);
     Init.azi := map np_radians (Init.azi a);
     Init.n := Init.n a; Init.e := Init.e a; Init.tvd := Init.tvd a;
     Init.x := Init.x a; Init.y := Init.y a; Init.z := Init.z a;
     Init.vec := Init.vec a; Init.radius := Init.radius a;
     Init.cov_nev := Init.cov_nev a; Init.cov_hla := Init.cov_hla a;
     Init.error_model := Init.error_model a;
     Init.well_ref_params := Init.well_ref_params a;
     Init.start_xyz := Init.start_xyz a; Init.start_nev := Init.start_nev a;
     Init.deg := false; Init.unit := Init.unit a |}.

(** The attributes of an instance that describe the well path. *)
Definition same_geometry (s s' : Survey.t) : Prop :=
  Survey.md s' = Survey.md s /\
  Survey.inc_rad s' = Survey.inc_rad s /\
  Survey.azi_rad s' = Survey.azi_rad s /\
  Survey.dogleg s' = Survey.dogleg s /\
  Survey.rf s' = Survey.rf s /\
  Survey.delta_md s' = Survey.delta_md s /\
  Survey.dls s' = Survey.dls s /\
  Survey.x s' = Survey.x s /\
  Survey.y s' = Survey.y s /\
  Survey.z s' = Survey.z s /\
  Survey.n s' = Survey.n s /\
  Survey.e s' = Survey.e s /\
  Survey.tvd s' = Survey.tvd s /\
  Survey.vec s' = Survey.vec s.

(** The imported functions return one entry per station: the arrays of a
    [MinCurve] object have the length of [md], and [get_nev] and [get_vec]
    return as many rows as they are given. *)
Definition one_entry_per_station `{Externals} : Prop :=
  (forall md inc azi start u,
     let mc := MinCurve md inc azi start u in
     length (MinCurve.dogleg mc) = length md /\
     length (MinCurve.delta_md mc) = length md /\
     length (MinCurve.poss mc) = length md) /\
  (forall pos sxyz snev, length (get_nev pos sxyz snev) = length pos) /\
  (forall inc azi deg, length (get_vec inc azi deg) = length inc).

(** ** Further instances on the vertical hole *)

Module Scenarios.
Import VerticalHole.

(** The survey of the example before its positions are computed: [x], [y],
    [z], [n], [e], [tvd] and [vec] are still [None]. *)
Definition unsolved_survey : Survey.t :=
  Survey.set_overrides None None None None None None None example_survey.

(** The survey of the example with tangent vectors supplied by the
    caller. *)
Definition supplied_vec : array2 :=
  [(fzero, fzero, 1%float); (fzero, 1%float, fzero)].

Definition supplied_vec_args : Init.args :=
  {| Init.md := [0%float; 100%float];
     Init.inc := [0%float; 0%float];
     Init.azi := [0%float; 0%float];
     Init.n := None; Init.e := None; Init.tvd := None;
     Init.x := None; Init.y := None; Init.z := None;
     Init.vec := Some supplied_vec; Init.radius := None;
     Init.cov_nev := None; Init.cov_hla := None;
     Init.error_model := None; Init.well_ref_params := None;
     Init.start_xyz := (fzero, fzero, fzero);
     Init.start_nev := (fzero, fzero, fzero);
     Init.deg := true; Init.unit := "meters" |}.

Definition supplied_vec_run := Survey supplied_vec_args [] [].

(** An instance whose only interval is curved: the survey of the example
    with a dogleg of 0.5 rad assigned to its second station.  The imported
    functions stay those of the vertical hole, with its stand-ins for
    [sin] and [get_angles]. *)
Definition curved_survey : Survey.t :=
  Survey.set_geometry [0%float; 0.5%float]
                      (Survey.rf example_survey)
                      (Survey.delta_md example_survey)
                      (Survey.dls example_survey) example_survey.

Definition curved_store : list Survey.t := [curved_survey].

Definition curved_run := interpolate_survey 0%nat 50%float 0 curved_store [].
End Scenarios.

(** * Proofs *)

(** ** Arrays *)

Lemma lookup_map {A B : Type} (f : A -> B) (l : list A) (i : nat) :
  map f l !! i = f <$> (l !! i).
Proof. exact (list_lookup_fmap f l i). Qed.

Lemma arr_mul_same_length (a b : array1) :
  length a = length b -> arr_mul a b = Ok (zip_with PrimFloat.mul a b).
Proof.
  intros Hlen. unfold arr_mul.
  destruct a as [|s [|s' a']], b as [|t [|t' b']]; simpl in *;
    try discriminate; try reflexivity.
  injection Hlen as Hlen. rewrite Hlen, Nat.eqb_refl. reflexivity.
Qed.

Lemma nth_zip_with_mul (a b : array1) (k : nat) (ak bk : float) :
  a !! k = Some ak -> b !! k = Some bk ->
  List.nth k (zip_with PrimFloat.mul a b) fzero = PrimFloat.mul ak bk.
Proof.
  intros Ha Hb. apply nth_lookup_Some.
  apply lookup_zip_with_Some. eauto.
Qed.

Lemma nth_zeros_like (a : array1) (k : nat) :
  List.nth k (zeros_like a) fzero = fzero.
Proof.
  unfold zeros_like. revert k.
  induction a as [|u a IH]; intros [|k]; simpl; auto.
Qed.

Lemma length_zip_same (a b : array1) :
  length a = length b -> length (zip_with PrimFloat.mul a b) = length a.
Proof. intros Hlen. rewrite length_zip_with. lia. Qed.

Lemma zip3_unstack3 (rows : array2) :
  zip3 (col0 rows) (col1 rows) (col2 rows) = rows.
Proof. induction rows as [|[[u v] w] rows IH]; simpl; congruence. Qed.

Lemma stack3_unstack3 (rows : array2) :
  stack3 (col0 rows) (col1 rows) (col2 rows) = Ok rows.
Proof.
  unfold stack3, col0, col1, col2.
  rewrite !length_map, Nat.eqb_refl. simpl. now rewrite zip3_unstack3.
Qed.

Lemma stack3_opt_unstack3 (rows : array2) :
  stack3_opt (Some (col0 rows)) (Some (col1 rows)) (Some (col2 rows)) = Ok rows.
Proof. apply stack3_unstack3. Qed.

Lemma stack3_Err_lengths (c0 c1 c2 : array1) (e : exn) :
  stack3 c0 c1 c2 = Err e ->
  e = ValueError /\ ~ (length c1 = length c0 /\ length c2 = length c0).
Proof.
  unfold stack3. intros Hs. case_match eqn:Hb; simplify_eq.
  split; [reflexivity|].
  intros [H1 H2]. rewrite H1, H2, !Nat.eqb_refl in Hb. discriminate.
Qed.

Lemma stack3_opt_Err (c0 c1 c2 : option array1) (e : exn) :
  stack3_opt c0 c1 c2 = Err e -> e = ValueError.
Proof.
  destruct c0, c1, c2; simpl; try congruence.
  intros Hs. now apply stack3_Err_lengths in Hs.
Qed.

Lemma stack3_Ok_inv (c0 c1 c2 : array1) (rows : array2) :
  stack3 c0 c1 c2 = Ok rows ->
  length c1 = length c0 /\ length c2 = length c0.
Proof.
  unfold stack3. intros Hs.
  destruct (Nat.eqb (length c0) (length c1)) eqn:H1; [|discriminate].
  destruct (Nat.eqb (length c1) (length c2)) eqn:H2; [|discriminate].
  apply Nat.eqb_eq in H1, H2. lia.
Qed.

Lemma py_index_Some {A : Type} (l : list A) (i : Z) :
  0 <= i < Z.of_nat (length l) -> exists a, py_index l i = Some a.
Proof.
  intros [Hlo Hhi]. unfold py_index.
  rewrite (proj2 (Z.leb_le 0 i) Hlo).
  apply lookup_lt_is_Some. lia.
Qed.

Lemma py_mul_arrays (a b : array1) :
  py_mul (NdArray a) (NdArray b) = arr_mul a b.
Proof. reflexivity. Qed.

Lemma py_mul_same_length (a b : array_like) :
  length (values a) = length (values b) ->
  py_mul a b = match a, b with
               | PyList _, PyList _ => Err TypeError
               | _, _ => Ok (zip_with PrimFloat.mul (values a) (values b))
               end.
Proof.
  intros Hlen. destruct a, b; simpl in *; try reflexivity;
    now apply arr_mul_same_length.
Qed.

Lemma nth_lookup_or (v : list float) (k : nat) :
  (k < length v)%nat -> v !! k = Some (List.nth k v fzero).
Proof.
  intros Hk. destruct (lookup_lt_is_Some_2 v k Hk) as [x Hx].
  rewrite Hx. f_equal. symmetry. now apply nth_lookup_Some.
Qed.

Lemma length_3 {A : Type} (l : list A) :
  length l = 3%nat -> exists x y z, l = [x; y; z].
Proof.
  destruct l as [|x [|y [|z [|? ?]]]]; try discriminate. eauto.
Qed.

(** [T3] takes the axis-major layout (3,3,n) to the station-major layout
    (n,3,3): entry [k][j][i] of the result is entry [i][j][k] of the
    argument. *)
Lemma T3_station_major (a : array3) (n : nat) :
  has_shape 3 3 n a = true ->
  has_shape n 3 3 (T3 a) = true /\
  forall i j k : nat, entry (T3 a) k j i = entry a i j k.
Proof.
  unfold has_shape. intros Hs.
  apply andb_prop in Hs as [Hlen Hs]. apply Nat.eqb_eq in Hlen.
  destruct (length_3 a Hlen) as (m0 & m1 & m2 & ->). simpl in Hs.
  repeat match goal with
         | Hb : _ && _ = true |- _ => apply andb_prop in Hb as [? ?]
         end.
  repeat match goal with
         | Hl : Nat.eqb _ _ = true |- _ => apply Nat.eqb_eq in Hl
         end.
  destruct (length_3 m0) as (v00 & v01 & v02 & ->); [assumption|].
  destruct (length_3 m1) as (v10 & v11 & v12 & ->); [assumption|].
  destruct (length_3 m2) as (v20 & v21 & v22 & ->); [assumption|].
  repeat match goal with
         | Hf : forallb _ _ = true |- _ => simpl in Hf
         | Hb : _ && _ = true |- _ => apply andb_prop in Hb as [? ?]
         | Ht : true = true |- _ => clear Ht
         end.
  repeat match goal with
         | Hl : Nat.eqb _ _ = true |- _ => apply Nat.eqb_eq in Hl
         end.
  unfold T3. simpl length. simpl List.hd.
  split.
  - rewrite length_map, length_seq.
    replace (length v00) with n by congruence.
    rewrite Nat.eqb_refl. simpl.
    apply forallb_forall. intros m Hm. apply in_map_iff in Hm as (k & <- & _).
    reflexivity.
  - intros i j k. unfold entry.
    rewrite lookup_map.
    destruct (decide (k < n)%nat) as [Hk|Hk].
    + rewrite lookup_seq_lt by congruence. simpl.
      destruct i as [|[|[|i]]], j as [|[|[|j]]]; simpl; try reflexivity;
        unfold at3; simpl; symmetry; apply nth_lookup_or; congruence.
    + rewrite lookup_seq_ge by (simpl; lia || congruence). simpl.
      destruct i as [|[|[|i]]], j as [|[|[|j]]]; simpl; try reflexivity;
        symmetry; apply lookup_ge_None; lia || congruence.
Qed.

(** ** Float comparisons, from the IEEE specification of the primitives *)

Lemma SFcompare_antisym (f1 f2 : spec_float) (c : comparison) :
  SFcompare f1 f2 = Some c -> SFcompare f2 f1 = Some (CompOpp c).
Proof.
  destruct f1 as [s1|s1| |s1 m1 e1], f2 as [s2|s2| |s2 m2 e2]; simpl;
    intros Hc; simplify_eq; try reflexivity;
    try (destruct s1; reflexivity); try (destruct s2; reflexivity);
    try (destruct s1, s2; reflexivity).
  destruct s1, s2; try reflexivity.
  - rewrite (Z.compare_antisym e1 e2).
    destruct (e1 ?= e2); simpl; try reflexivity.
    now rewrite (Pos.compare_cont_antisym m1 m2 Eq).
  - rewrite (Z.compare_antisym e1 e2).
    destruct (e1 ?= e2); simpl; try reflexivity.
    rewrite (Pos.compare_cont_antisym m1 m2 Eq). reflexivity.
Qed.

Lemma SFcompare_defined (f1 f2 : spec_float) :
  SFeqb f1 f1 = true -> SFeqb f2 f2 = true ->
  exists c, SFcompare f1 f2 = Some c.
Proof.
  unfold SFeqb.
  destruct f1 as [s1|s1| |s1 m1 e1], f2 as [s2|s2| |s2 m2 e2]; simpl;
    intros H1 H2; try discriminate; eauto.
Qed.

Lemma is_nan_false (v : float) :
  PrimFloat.is_nan v = false -> SFeqb (Prim2SF v) (Prim2SF v) = true.
Proof.
  unfold PrimFloat.is_nan. rewrite FloatAxioms.eqb_spec.
  now destruct (SFeqb (Prim2SF v) (Prim2SF v)).
Qed.

Lemma leb_false_iff_ltb (v d : float) :
  PrimFloat.is_nan v = false -> PrimFloat.is_nan d = false ->
  PrimFloat.leb v d = false <-> PrimFloat.ltb d v = true.
Proof.
  intros Hv Hd. apply is_nan_false in Hv. apply is_nan_false in Hd.
  rewrite leb_spec, ltb_spec. unfold SFleb, SFltb.
  destruct (SFcompare_defined _ _ Hv Hd) as [c Hc].
  rewrite Hc, (SFcompare_antisym _ _ _ Hc).
  destruct c; simpl; split; congruence.
Qed.

Lemma leb_refl (d : float) :
  PrimFloat.is_nan d = false -> PrimFloat.leb d d = true.
Proof.
  intros Hd. apply is_nan_false in Hd. rewrite leb_spec.
  unfold SFleb, SFeqb in *.
  destruct (SFcompare (Prim2SF d) (Prim2SF d)) as [[]|]; congruence.
Qed.

(** ** Running the monad *)

(** Unfold the monad operations and compute, leaving the array builders,
    the comparisons and the methods folded. *)
Ltac run :=
  cbv [mbind ST_bind mret ST_ret self call assign lift raise py_assert
       getitem subscriptable];
  cbn -[stack3 stack3_opt col0 col1 col2 _min_curve _get_errors T3
        __init__ Survey on Z.sub Z.add Z.of_nat Z.ltb
        PrimFloat.is_infinity py_index].

Ltac run_in H :=
  cbv [mbind ST_bind mret ST_ret self call assign lift raise py_assert
       getitem subscriptable] in H;
  cbn -[stack3 stack3_opt col0 col1 col2 _min_curve _get_errors T3
        __init__ Survey on Z.sub Z.add Z.of_nat Z.ltb
        PrimFloat.is_infinity py_index] in H.

Lemma lookup_snoc (st : list Survey.t) (s : Survey.t) :
  (st ++ [s]) !! length st = Some s.
Proof. now apply list_lookup_middle. Qed.

Lemma insert_snoc (st : list Survey.t) (s s' : Survey.t) :
  <[length st := s']> (st ++ [s]) = st ++ [s'].
Proof. rewrite insert_app_r_alt by lia. now rewrite Nat.sub_diag. Qed.

(** ** The methods, one statement each *)

Section Methods.
Context `{Externals}.

(** [_min_curve]: what it assigns, what it leaves alone, which calls it
    makes, and its only failure (supplied positions that do not stack when
    the NEV projection is needed). *)
Lemma _min_curve_spec (s : Survey.t) (tr : list event)
    (r : result ()) (s' : Survey.t) (tr' : list event) :
  _min_curve s tr = (r, s', tr') ->
  min_curve_frame s s' /\
  Survey.dogleg s' = MinCurve.dogleg (solver_of s) /\
  Survey.rf s' = MinCurve.rf (solver_of s) /\
  Survey.delta_md s' = MinCurve.delta_md (solver_of s) /\
  Survey.dls s' = MinCurve.dls (solver_of s) /\
  (if is_None (Survey.x s)
   then Survey.x s' = Some (col0 (MinCurve.poss (solver_of s))) /\
        Survey.y s' = Some (col1 (MinCurve.poss (solver_of s))) /\
        Survey.z s' = Some (col2 (MinCurve.poss (solver_of s)))
   else Survey.x s' = Survey.x s /\ Survey.y s' = Survey.y s /\
        Survey.z s' = Survey.z s) /\
  match r with
  | Ok _ =>
      (if is_None (Survey.n s)
       then exists pos,
              stack3_opt (Survey.x s') (Survey.y s') (Survey.z s') = Ok pos /\
              let nev := get_nev pos (Survey.start_xyz s) (Survey.start_nev s) in
              Survey.n s' = Some (col0 nev) /\
              Survey.e s' = Some (col1 nev) /\
              Survey.tvd s' = Some (col2 nev)
       else Survey.n s' = Survey.n s /\ Survey.e s' = Survey.e s /\
            Survey.tvd s' = Survey.tvd s) /\
      (if is_None (Survey.vec s)
       then Survey.vec s' =
              Some (get_vec (Survey.inc_rad s) (Survey.azi_rad s) false)
       else Survey.vec s' = Survey.vec s) /\
      tr' = tr ++ [CallMinCurve]
               ++ (if is_None (Survey.n s) then [CallGetNev] else [])
               ++ (if is_None (Survey.vec s) then [CallGetVec] else [])
  | Err e =>
      e = ValueError /\ is_None (Survey.n s) = true /\
      is_None (Survey.x s) = false /\
      stack3_opt (Survey.x s) (Survey.y s) (Survey.z s) = Err ValueError /\
      tr' = tr ++ [CallMinCurve]
  end.
Proof.
  unfold _min_curve, _get_nev, min_curve_frame, solver_of.
  destruct s as [u dg sx sn md ir ar idg adg rad sdg srd
                 n e tvd x y z vec dl rf dm dls em wr ch cn er].
  intros Hrun. run_in Hrun.
  destruct x as [x|]; run_in Hrun.
  - destruct n as [n|]; run_in Hrun.
    + destruct vec as [vec|]; run_in Hrun; simplify_eq; simpl;
        rewrite <- ?app_assoc; simpl; repeat split; reflexivity.
    + destruct (stack3_opt (Some x) y z) as [pos|err] eqn:Hpos; run_in Hrun.
      * destruct vec as [vec|]; run_in Hrun; simplify_eq; simpl;
          rewrite <- ?app_assoc; simpl; repeat split; eauto.
      * simplify_eq. pose proof (stack3_opt_Err _ _ _ _ Hpos). subst. simpl. repeat split; auto.
  - destruct n as [n|]; run_in Hrun.
    + destruct vec as [vec|]; run_in Hrun; simplify_eq; simpl;
        rewrite <- ?app_assoc; simpl; repeat split; reflexivity.
    + rewrite stack3_opt_unstack3 in Hrun. run_in Hrun.
      destruct vec as [vec|]; run_in Hrun; simplify_eq; simpl;
        rewrite <- ?app_assoc; simpl; repeat split; eauto using stack3_opt_unstack3.
Qed.

(** [_get_errors] in closed form. *)
Lemma _get_errors_run (s : Survey.t) (tr : list event) :
  _get_errors s tr =
  if truthy (Survey.error_model s) && bool_decide (Survey.error_model s = Some recognized)
  then
    let out := ErrorModel (Survey.survey_deg s) (Survey.start_xyz s)
                          (Survey.well_ref_params s) in
    (Ok (), Survey.set_errors (Some out) (Some (T3 (ErrorModel.cov_HLAs out)))
                              (Some (T3 (ErrorModel.cov_NEVs out))) s,
     tr ++ [CallErrorModel])
  else (Ok (), s, tr).
Proof.
  unfold _get_errors. run.
  destruct (truthy (Survey.error_model s)); simpl; [|reflexivity].
  destruct (bool_decide (Survey.error_model s = Some recognized)); reflexivity.
Qed.

(** [__init__]: every attribute of the constructed instance, the calls
    made, and the three ways construction fails. *)
Lemma __init___spec (a : Init.args) (s0 : Survey.t) (tr : list event)
    (r : result ()) (s : Survey.t) (tr' : list event) :
  __init__ a s0 tr = (r, s, tr') ->
  match r with
  | Ok _ =>
      Survey.unit s = Init.unit a /\
      Survey.deg s = Init.deg a /\
      Survey.start_xyz s = Init.start_xyz a /\
      Survey.start_nev s = Init.start_nev a /\
      Survey.md s = Init.md a /\
      (Survey.inc_rad s, Survey.azi_rad s, Survey.inc_deg s, Survey.azi_deg s)
        = angles_of a /\
      Survey.radius s = Init.radius a /\
      stack3 (Survey.md s) (Survey.inc_deg s) (Survey.azi_deg s)
        = Ok (Survey.survey_deg s) /\
      stack3 (Survey.md s) (Survey.inc_rad s) (Survey.azi_rad s)
        = Ok (Survey.survey_rad s) /\
      Survey.dogleg s = MinCurve.dogleg (solver_of s) /\
      Survey.rf s = MinCurve.rf (solver_of s) /\
      Survey.delta_md s = MinCurve.delta_md (solver_of s) /\
      Survey.dls s = MinCurve.dls (solver_of s) /\
      (if is_None (Init.x a)
       then Survey.x s = Some (col0 (MinCurve.poss (solver_of s))) /\
            Survey.y s = Some (col1 (MinCurve.poss (solver_of s))) /\
            Survey.z s = Some (col2 (MinCurve.poss (solver_of s)))
       else Survey.x s = Init.x a /\ Survey.y s = Init.y a /\
            Survey.z s = Init.z a) /\
      (if is_None (Init.n a)
       then exists pos,
              stack3_opt (Survey.x s) (Survey.y s) (Survey.z s) = Ok pos /\
              let nev := get_nev pos (Survey.start_xyz s) (Survey.start_nev s) in
              Survey.n s = Some (col0 nev) /\
              Survey.e s = Some (col1 nev) /\
              Survey.tvd s = Some (col2 nev)
       else Survey.n s = Init.n a /\ Survey.e s = Init.e a /\
            Survey.tvd s = Init.tvd a) /\
      (if is_None (Init.vec a)
       then Survey.vec s =
              Some (get_vec (Survey.inc_rad s) (Survey.azi_rad s) false)
       else Survey.vec s = Init.vec a) /\
      Survey.error_model s = Init.error_model a /\
      Survey.well_ref_params s = Init.well_ref_params a /\
      match Init.error_model a with
      | None =>
          Survey.cov_hla s = Init.cov_hla a /\
          Survey.cov_nev s = Init.cov_nev a /\
          Survey.err s = Survey.err s0
      | Some em =>
          em = recognized /\
          let out := ErrorModel (Survey.survey_deg s) (Survey.start_xyz s)
                                (Survey.well_ref_params s) in
          Survey.err s = Some out /\
          Survey.cov_hla s = Some (T3 (ErrorModel.cov_HLAs out)) /\
          Survey.cov_nev s = Some (T3 (ErrorModel.cov_NEVs out))
      end /\
      tr' = tr ++ [CallMinCurve]
               ++ (if is_None (Init.n a) then [CallGetNev] else [])
               ++ (if is_None (Init.vec a) then [CallGetVec] else [])
               ++ (if is_None (Init.error_model a) then [] else [CallErrorModel])
  | Err e =>
      (e = ValueError /\ tr' = tr /\
       ~ (length (Init.inc a) = length (Init.md a) /\
          length (Init.azi a) = length (Init.md a))) \/
      (e = ValueError /\ tr' = tr ++ [CallMinCurve] /\
       is_None (Init.n a) = true /\ is_None (Init.x a) = false /\
       stack3_opt (Init.x a) (Init.y a) (Init.z a) = Err ValueError) \/
      (e = InvalidConfiguration /\
       (exists em, Init.error_model a = Some em /\ em <> recognized) /\
       tr' = tr ++ [CallMinCurve]
                ++ (if is_None (Init.n a) then [CallGetNev] else [])
                ++ (if is_None (Init.vec a) then [CallGetVec] else []))
  end.
Proof.
  unfold __init__, _make_angles, angles_of.
  destruct a as [md inc azi n e tvd x y z vec rad cn ch em wr sx sn dg u].
  intros Hrun. simpl in *.
  destruct dg; run_in Hrun.
  all: match type of Hrun with
       | context [stack3 ?c0 ?c1 ?c2] =>
           destruct (stack3 c0 c1 c2) as [sd|e1] eqn:Hsd; run_in Hrun
       end.
  all: try (simplify_eq; apply stack3_Err_lengths in Hsd as [-> Hsd];
            rewrite ?length_map in Hsd; left; auto).
  all: match type of Hrun with
       | context [stack3 ?c0 ?c1 ?c2] =>
           destruct (stack3 c0 c1 c2) as [sr|e2] eqn:Hsr; run_in Hrun
       end.
  all: try (simplify_eq; apply stack3_Err_lengths in Hsr as [-> Hsr];
            rewrite ?length_map in Hsr; left; auto).
  all: match type of Hrun with
       | context [_min_curve ?s1 ?t1] =>
           destruct (_min_curve s1 t1) as [[r1 s2] tr1] eqn:Hmc;
           apply _min_curve_spec in Hmc; unfold min_curve_frame, solver_of in Hmc;
           simpl in Hmc
       end.
  all: destruct r1 as [[]|e1].
  all: try (simplify_eq; right; left; tauto).
  all: unfold error_models in Hrun; destruct em as [em|]; simpl in Hrun.
  all: try match type of Hrun with
       | context [bool_decide (?m ∈ ?l)] =>
           destruct (bool_decide (m ∈ l)) eqn:Hem;
           [apply bool_decide_eq_true_1 in Hem; apply list_elem_of_singleton in Hem; subst m
           |apply bool_decide_eq_false_1 in Hem; rewrite list_elem_of_singleton in Hem]
       end.
  all: rewrite ?_get_errors_run in Hrun; simpl in Hrun.
  all: simplify_eq.
  all: try (right; right; split; [reflexivity|]; split; [eauto|]; tauto).
  all: simpl; unfold solver_of; simpl.
  all: destruct Hmc as ((-> & -> & -> & -> & -> & -> & -> & -> & -> & -> & -> & -> & _ & _ & _ & _ & Herr)
                        & -> & -> & -> & -> & Hxyz & Hnev & Hvec & ->).
  all: rewrite Hsd, Hsr.
  all: rewrite <- ?app_assoc; simpl.
  all: destruct x, n, vec; simpl in *; rewrite ?app_nil_r; repeat split; try tauto.
Qed.

(** [Survey(...)] appends one instance to the store. *)
Lemma Survey_run (a : Init.args) (st : list Survey.t) (tr : list event) :
  Survey a st tr =
  let '(r, s, tr') := __init__ a Survey.blank tr in
  (match r with Ok _ => Ok (length st) | Err e => Err e end, st ++ [s], tr').
Proof.
  unfold Survey, alloc, on. run. rewrite lookup_snoc.
  destruct (__init__ a Survey.blank tr) as [[[[]|e] s] tr'];
    simpl; now rewrite insert_snoc.
Qed.

(** Construction from angles alone always succeeds. *)
Lemma Survey_fresh (a : Init.args) (st : list Survey.t) (tr : list event) :
  length (Init.inc a) = length (Init.md a) ->
  length (Init.azi a) = length (Init.md a) ->
  Init.x a = None -> Init.n a = None -> Init.vec a = None ->
  Init.error_model a = None ->
  exists s,
    Survey a st tr =
      (Ok (length st), st ++ [s], tr ++ [CallMinCurve; CallGetNev; CallGetVec]) /\
    Survey.md s = Init.md a /\
    (Survey.inc_rad s, Survey.azi_rad s, Survey.inc_deg s, Survey.azi_deg s)
      = angles_of a /\
    Survey.start_xyz s = Init.start_xyz a /\
    Survey.start_nev s = Init.start_nev a /\
    Survey.deg s = Init.deg a /\
    Survey.unit s = Init.unit a /\
    is_None (Survey.x s) = false /\
    is_None (Survey.n s) = false /\
    is_None (Survey.vec s) = false.
Proof.
  intros Hinc Hazi Hx Hn Hvec Hem. rewrite Survey_run.
  destruct (__init__ a Survey.blank tr) as [[r s] tr'] eqn:Hinit.
  apply __init___spec in Hinit. rewrite Hx, Hn, Hvec, Hem in Hinit. simpl in Hinit.
  destruct r as [[]|e].
  - destruct Hinit as (Hu & Hd & Hsx & Hsn & Hmd & Hang & _ & _ & _ & _ & _ & _ & _
                       & (Hxs & _) & (pos & _ & Hns & _) & Hvs & _ & _ & _ & ->).
    exists s. rewrite Hxs, Hns, Hvs. repeat split; auto.
  - destruct Hinit as [(_ & _ & Hlen)|[(_ & _ & _ & ? & _)|(_ & (em & ? & _) & _)]];
      [tauto|discriminate|discriminate].
Qed.

(** A second [_min_curve] on a constructed instance only refreshes the
    solver outputs. *)
Lemma on_min_curve_again (st : list Survey.t) (s : Survey.t) (tr : list event) :
  is_None (Survey.x s) = false ->
  is_None (Survey.n s) = false ->
  is_None (Survey.vec s) = false ->
  exists s',
    on (length st) _min_curve (st ++ [s]) tr =
      (Ok (), st ++ [s'], tr ++ [CallMinCurve]) /\
    min_curve_frame s s'.
Proof.
  intros Hx Hn Hvec. unfold on. rewrite lookup_snoc.
  destruct (_min_curve s tr) as [[r s'] tr'] eqn:Hmc.
  apply _min_curve_spec in Hmc. rewrite Hx, Hn, Hvec in Hmc.
  destruct r as [[]|e].
  - destruct Hmc as (Hfr & _ & _ & _ & _ & _ & _ & _ & ->).
    exists s'. now rewrite insert_snoc.
  - destruct Hmc as (_ & _ & _ & _ & _ & _ & _ & ? & _). discriminate.
Qed.

(** [interpolate_survey]: the result of every run. *)
Lemma interpolate_survey_spec (survey : loc) (x : float) (index : Z)
    (st : list Survey.t) (tr : list event) (sv : Survey.t)
    (r : result loc) (st' : list Survey.t) (tr' : list event) :
  st !! survey = Some sv ->
  interpolate_survey survey x index st tr = (r, st', tr') ->
  match r with
  | Ok l =>
      index < Z.of_nat (length (Survey.md sv)) - 1 /\
      exists d dl md0 inc0 azi0 inc azi xyz nev s,
        py_index (Survey.delta_md sv) (index + 1) = Some d /\
        PrimFloat.leb x d = true /\
        py_index (Survey.dogleg sv) (index + 1) = Some dl /\
        py_index (Survey.md sv) index = Some md0 /\
        py_index (Survey.inc_rad sv) index = Some inc0 /\
        py_index (Survey.azi_rad sv) index = Some azi0 /\
        stack3_opt (Survey.x sv) (Survey.y sv) (Survey.z sv) = Ok xyz /\
        stack3_opt (Survey.n sv) (Survey.e sv) (Survey.tvd sv) = Ok nev /\
        l = length st /\ st' = st ++ [s] /\
        Survey.md s = [md0; PrimFloat.add md0 x] /\
        Survey.inc_rad s = [inc0; inc] /\
        Survey.azi_rad s = [azi0; azi] /\
        py_index xyz index = Some (Survey.start_xyz s) /\
        py_index nev index = Some (Survey.start_nev s) /\
        Survey.deg s = false /\
        Survey.inc_deg s = map np_degrees (Survey.inc_rad s) /\
        Survey.azi_deg s = map np_degrees (Survey.azi_rad s) /\
        if PrimFloat.eqb dl fzero
        then inc = inc0 /\ azi = azi0 /\
             tr' = tr ++ [CallMinCurve; CallGetNev; CallGetVec; CallMinCurve]
        else exists vecs t1 t2,
             Survey.vec sv = Some vecs /\
             py_index vecs index = Some t1 /\
             py_index vecs (index + 1) = Some t2 /\
             let dogleg := PrimFloat.mul x (PrimFloat.div dl d) in
             let t := vadd (scale (PrimFloat.div (sin (PrimFloat.sub dl dogleg))
                                                 (sin dl)) t1)
                           (scale (PrimFloat.div (sin dogleg) (sin dl)) t2) in
             py_index (get_angles t) 0 = Some (inc, azi) /\
             tr' = tr ++ [CallSin; CallSin; CallSin; CallSin; CallGetAngles;
                          CallMinCurve; CallGetNev; CallGetVec; CallMinCurve]
  | Err e =>
      st' = st /\
      ((e = IndexOutOfRange /\ tr' = tr /\
        Z.of_nat (length (Survey.md sv)) - 1 <= index) \/
       (e = OutOfRange /\ tr' = tr /\
        index < Z.of_nat (length (Survey.md sv)) - 1 /\
        exists d, py_index (Survey.delta_md sv) (index + 1) = Some d /\
                  PrimFloat.leb x d = false) \/
       (index < Z.of_nat (length (Survey.md sv)) - 1 /\
        (e = IndexError \/ e = TypeError \/ e = ValueError)))
  end.
Proof.
  intros Hsv Hrun. unfold interpolate_survey, get, math_sin in Hrun.
  run_in Hrun. rewrite Hsv in Hrun. run_in Hrun.
  destruct (index <? Z.of_nat (length (Survey.md sv)) - 1) eqn:Hidx; run_in Hrun.
  2:{ simplify_eq. apply Z.ltb_ge in Hidx. split; [reflexivity|]. left. auto. }
  apply Z.ltb_lt in Hidx.
  destruct (py_index (Survey.delta_md sv) (index + 1)) as [d|] eqn:Hd; run_in Hrun.
  2:{ simplify_eq. split; [reflexivity|]. right. right. auto. }
  destruct (PrimFloat.leb x d) eqn:Hle; run_in Hrun.
  2:{ simplify_eq. split; [reflexivity|]. right. left. eauto 10. }
  destruct (py_index (Survey.dogleg sv) (index + 1)) as [dl|] eqn:Hdl; run_in Hrun.
  2:{ simplify_eq. split; [reflexivity|]. right. right. auto. }
  destruct (PrimFloat.eqb dl fzero) eqn:Hz; run_in Hrun.
  all: repeat (match type of Hrun with
          | context [if ?c then _ else _] => destruct c eqn:?
          | context [match py_index (get_angles ?t) ?i with _ => _ end] =>
              destruct (py_index (get_angles t) i) as [[? ?]|] eqn:?
          | context [match py_index ?l ?i with _ => _ end] =>
              destruct (py_index l i) eqn:?
          | context [match Survey.vec ?v with _ => _ end] =>
              destruct (Survey.vec v) eqn:?
          | context [match stack3_opt ?c0 ?c1 ?c2 with _ => _ end] =>
              destruct (stack3_opt c0 c1 c2) eqn:?
          end; run_in Hrun;
          try (simplify_eq; split; [reflexivity|]; right; right;
               split; [assumption|];
               repeat match goal with
                      | Hs : stack3_opt _ _ _ = Err _ |- _ =>
                          apply stack3_opt_Err in Hs; subst
                      end; tauto)).
  all: match type of Hrun with
       | context [Survey ?a ?s ?t] =>
           destruct (Survey_fresh a s t) as
             (s0 & HS & Hmd & Hang & Hsx & Hsn & Hdeg & Hu & Hx0 & Hn0 & Hv0);
           [reflexivity..|]; rewrite HS in Hrun; run_in Hrun
       end.
  all: match type of Hrun with
       | context [on _ _ _ ?t] =>
           destruct (on_min_curve_again st s0 t Hx0 Hn0 Hv0) as (s1 & Hon & Hfr);
           rewrite Hon in Hrun; run_in Hrun
       end.
  all: simplify_eq; split; [assumption|].
  all: unfold angles_of in Hang; simpl in Hang, Hmd, Hsx, Hsn, Hdeg.
  all: destruct Hfr as (_ & Hdeg' & Hsx' & Hsn' & Hmd' & Hir' & Har'
                        & Hid' & Had' & _).
  all: injection Hang as Hir Har Hid Had.
  all: do 10 eexists.
  all: repeat (split;
               [first [reflexivity | eassumption
                      | rewrite Hmd', Hmd; reflexivity
                      | rewrite Hir', Hir; reflexivity
                      | rewrite Har', Har; reflexivity
                      | rewrite Hsx', Hsx; assumption
                      | rewrite Hsn', Hsn; assumption
                      | rewrite Hid', Hid, Hir', Hir; reflexivity
                      | rewrite Had', Had, Har', Har; reflexivity
                      | congruence]|]).
  all: rewrite Hz.
  - repeat split; try reflexivity. rewrite <- app_assoc. reflexivity.
  - do 3 eexists. cbv zeta.
    repeat split; try eassumption; try reflexivity.
    rewrite <- !app_assoc. reflexivity.
Qed.
End Methods.

(** ** The claims about construction and interpolation *)

Ltac not_in_list :=
  let Hin := fresh "Hin" in
  intros Hin;
  repeat (apply elem_of_cons in Hin as [Hin|Hin]; [discriminate Hin|]);
  apply elem_of_nil in Hin; exact Hin.

Section Claims.
Context `{Externals}.

(** C1.  [interpolate_survey] returns a new Survey whose station 0 carries
    the measured depth and the angles of the original station at [index]
    and whose station 1 is the interpolated point at depth [md[index] + x].
    The result has these two stations only: it has no station 2, so the
    original station at [index + 1] is not part of it. *)
Theorem interpolate_survey_two_stations (survey : loc) (x : float) (index : Z)
    (st : list Survey.t) (tr : list event) (sv : Survey.t)
    (l : loc) (st' : list Survey.t) (tr' : list event) :
  st !! survey = Some sv ->
  interpolate_survey survey x index st tr = (Ok l, st', tr') ->
  exists s md0 inc0 azi0 inc azi,
    st' !! l = Some s /\
    py_index (Survey.md sv) index = Some md0 /\
    py_index (Survey.inc_rad sv) index = Some inc0 /\
    py_index (Survey.azi_rad sv) index = Some azi0 /\
    Survey.md s = [md0; PrimFloat.add md0 x] /\
    Survey.inc_rad s = [inc0; inc] /\
    Survey.azi_rad s = [azi0; azi] /\
    py_index (Survey.md s) 2 = None.
Proof.
  intros Hsv Hrun.
  apply (interpolate_survey_spec _ _ _ _ _ _ _ _ _ Hsv) in Hrun.
  destruct Hrun as (_ & d & dl & md0 & inc0 & azi0 & inc & azi & xyz & nev & s
                    & _ & _ & _ & Hmd0 & Hinc0 & Hazi0 & _ & _ & -> & -> & Hmd
                    & Hinc & Hazi & _).
  exists s, md0, inc0, azi0, inc, azi.
  rewrite lookup_snoc, Hmd. repeat split; auto.
Qed.

(** C3.  Tangent section: when the dogleg of the bracketing interval is
      zero, the inclination and azimuth of the interpolated station are those
      of the station at [index] (in radians, the unit the function works in;
      the degree attributes of the result are [np.degrees] of them), and the
      run calls neither [math.sin] nor [get_angles]: the only calls are those
      of building the new Survey. *)
Theorem tangent_section_interpolation (survey : loc) (x : float) (index : Z)
    (st : list Survey.t) (tr : list event) (sv : Survey.t) (dl : float)
    (l : loc) (st' : list Survey.t) (tr' : list event) :
  st !! survey = Some sv ->
  py_index (Survey.dogleg sv) (index + 1) = Some dl ->
  PrimFloat.eqb dl fzero = true ->
  interpolate_survey survey x index st tr = (Ok l, st', tr') ->
  exists s inc0 azi0,
    st' !! l = Some s /\
    py_index (Survey.inc_rad sv) index = Some inc0 /\
    py_index (Survey.azi_rad sv) index = Some azi0 /\
    py_index (Survey.inc_rad s) 1 = Some inc0 /\
    py_index (Survey.azi_rad s) 1 = Some azi0 /\
    py_index (Survey.inc_deg s) 1 = Some (np_degrees inc0) /\
    py_index (Survey.azi_deg s) 1 = Some (np_degrees azi0) /\
    exists evs,
      tr' = tr ++ evs /\
      evs = [CallMinCurve; CallGetNev; CallGetVec; CallMinCurve] /\
      (CallSin ∉ evs) /\ (CallGetAngles ∉ evs).
Proof.
  intros Hsv Hdl Hz Hrun.
  apply (interpolate_survey_spec _ _ _ _ _ _ _ _ _ Hsv) in Hrun.
  destruct Hrun as (_ & d & dl' & md0 & inc0 & azi0 & inc & azi & xyz & nev & s
                    & _ & _ & Hdl' & _ & Hinc0 & Hazi0 & _ & _ & -> & -> & _
                    & Hinc & Hazi & _ & _ & _ & Hid & Had & Hbranch).
  rewrite Hdl in Hdl'. injection Hdl' as <-. rewrite Hz in Hbranch.
  destruct Hbranch as (-> & -> & ->).
  exists s, inc0, azi0. rewrite lookup_snoc, Hid, Had, Hinc, Hazi.
  do 7 (split; [reflexivity || assumption|]).
  eexists. do 2 (split; [reflexivity|]). split; not_in_list.
Qed.

(** C5, as amended.  [interpolate_survey] fails with IndexOutOfRange
    exactly when [index] is not strictly less than the number of stations
    minus one; the check comes first, so the store and the call log are
    then untouched.  No lower bound on [index] is checked. *)
Theorem index_check (survey : loc) (x : float) (index : Z)
    (st : list Survey.t) (tr : list event) (sv : Survey.t) :
  st !! survey = Some sv ->
  ((interpolate_survey survey x index st tr).1.1 = Err IndexOutOfRange <->
   Z.of_nat (length (Survey.md sv)) - 1 <= index) /\
  (Z.of_nat (length (Survey.md sv)) - 1 <= index ->
   interpolate_survey survey x index st tr = (Err IndexOutOfRange, st, tr)).
Proof.
  intros Hsv.
  destruct (interpolate_survey survey x index st tr) as [[r st'] tr'] eqn:Hrun.
  pose proof (interpolate_survey_spec _ _ _ _ _ _ _ _ _ Hsv Hrun) as Hspec.
  assert (Hfwd : Z.of_nat (length (Survey.md sv)) - 1 <= index ->
                 (r, st', tr') = (Err IndexOutOfRange, st, tr)).
  { intros Hge. destruct r as [l|e].
    - destruct Hspec as (Hlt & _). lia.
    - destruct Hspec as (-> & [(-> & -> & _)|[(_ & _ & Hlt & _)|(Hlt & _)]]);
        [reflexivity|lia|lia]. }
  split; [|exact Hfwd]. simpl. split.
  - intros ->. destruct Hspec as (_ & [(_ & _ & Hge)|[(He & _)|(_ & He)]]).
    + exact Hge.
    + discriminate.
    + destruct He as [He|[He|He]]; discriminate.
  - intros Hge. apply Hfwd in Hge. congruence.
Qed.

(** C6.  For an index that passes the index check and whose interval has
    the delta-MD [d], [interpolate_survey] fails with OutOfRange exactly
    when [x <= d] is false, with the store and the call log untouched; for
    numbers other than NaN that is exactly when [d < x], and [x = d] is
    accepted. *)
Theorem x_range_check (survey : loc) (x : float) (index : Z)
    (st : list Survey.t) (tr : list event) (sv : Survey.t) (d : float) :
  st !! survey = Some sv ->
  index < Z.of_nat (length (Survey.md sv)) - 1 ->
  py_index (Survey.delta_md sv) (index + 1) = Some d ->
  ((interpolate_survey survey x index st tr).1.1 = Err OutOfRange <->
   PrimFloat.leb x d = false) /\
  (PrimFloat.leb x d = false ->
   interpolate_survey survey x index st tr = (Err OutOfRange, st, tr)) /\
  (PrimFloat.is_nan x = false -> PrimFloat.is_nan d = false ->
   (PrimFloat.leb x d = false <-> PrimFloat.ltb d x = true)) /\
  (x = d -> PrimFloat.is_nan d = false ->
   (interpolate_survey survey x index st tr).1.1 <> Err OutOfRange).
Proof.
  intros Hsv Hidx Hd.
  destruct (interpolate_survey survey x index st tr) as [[r st'] tr'] eqn:Hrun.
  pose proof (interpolate_survey_spec _ _ _ _ _ _ _ _ _ Hsv Hrun) as Hspec.
  assert (Hbwd : r = Err OutOfRange -> PrimFloat.leb x d = false).
  { intros ->. destruct Hspec as (_ & [(He & _)|[(_ & _ & _ & d' & Hd' & Hle)|(_ & He)]]).
    - discriminate.
    - congruence.
    - destruct He as [He|[He|He]]; discriminate. }
  assert (Hfwd : PrimFloat.leb x d = false ->
                 (r, st', tr') = (Err OutOfRange, st, tr)).
  { intros Hle. rewrite <- Hrun. unfold interpolate_survey, get. run.
    rewrite Hsv. run. rewrite (proj2 (Z.ltb_lt _ _) Hidx). run.
    rewrite Hd. run. rewrite Hle. reflexivity. }
  simpl. repeat split.
  - exact Hbwd.
  - intros Hle. apply Hfwd in Hle. congruence.
  - exact Hfwd.
  - now apply leb_false_iff_ltb.
  - now apply leb_false_iff_ltb.
  - intros -> Hnan Hr. apply Hbwd in Hr. rewrite leb_refl in Hr by assumption.
    discriminate.
Qed.

(** C9.  [interpolate_survey] changes no instance of the store it is run
    in, whatever its outcome; the Survey it returns is at a location that
    held nothing before, so it is none of the existing instances (the
    input included). *)
Theorem interpolate_survey_frame (survey : loc) (x : float) (index : Z)
    (st : list Survey.t) (tr : list event)
    (r : result loc) (st' : list Survey.t) (tr' : list event) :
  interpolate_survey survey x index st tr = (r, st', tr') ->
  (forall l0 s0, st !! l0 = Some s0 -> st' !! l0 = Some s0) /\
  (forall l, r = Ok l -> st !! l = None /\ l <> survey /\ is_Some (st' !! l)).
Proof.
  intros Hrun.
  destruct (st !! survey) as [sv|] eqn:Hsv.
  - apply (interpolate_survey_spec _ _ _ _ _ _ _ _ _ Hsv) in Hrun.
    destruct r as [l|e].
    + destruct Hrun as (_ & d & dl & md0 & inc0 & azi0 & inc & azi & xyz & nev & s
                        & _ & _ & _ & _ & _ & _ & _ & _ & -> & -> & _).
      split.
      * intros l0 s0 Hl0. rewrite lookup_app_l; [exact Hl0|].
        eapply lookup_lt_Some; eauto.
      * intros l' Hl'. injection Hl' as Hl'. subst l'. split; [|split].
        -- apply lookup_ge_None. lia.
        -- intros Heq. apply lookup_lt_Some in Hsv. lia.
        -- rewrite lookup_snoc. eauto.
    + destruct Hrun as (-> & _). split; [auto|]. intros l [=].
  - unfold interpolate_survey, get in Hrun. run_in Hrun. rewrite Hsv in Hrun.
    run_in Hrun. simplify_eq. split; [auto|]. intros l [=].
Qed.

(** C10.  Position overrides are resolved by [x] alone and NEV overrides
    by [n] alone: without [x], the instance's [x], [y], [z] are the
    solver's positions whatever [y] and [z] were supplied; with [x], they
    are the supplied [x], [y], [z], absent ones staying absent; likewise
    [e] and [tvd] are projected, or kept as supplied, together with [n]. *)
Theorem position_overrides (a : Init.args)
    (st : list Survey.t) (tr : list event)
    (l : loc) (st' : list Survey.t) (tr' : list event) :
  Survey a st tr = (Ok l, st', tr') ->
  exists s,
    st' !! l = Some s /\
    (if is_None (Init.x a)
     then Survey.x s = Some (col0 (MinCurve.poss (solver_of s))) /\
          Survey.y s = Some (col1 (MinCurve.poss (solver_of s))) /\
          Survey.z s = Some (col2 (MinCurve.poss (solver_of s)))
     else Survey.x s = Init.x a /\ Survey.y s = Init.y a /\
          Survey.z s = Init.z a) /\
    (if is_None (Init.n a)
     then exists pos,
            stack3_opt (Survey.x s) (Survey.y s) (Survey.z s) = Ok pos /\
            let nev := get_nev pos (Survey.start_xyz s) (Survey.start_nev s) in
            Survey.n s = Some (col0 nev) /\
            Survey.e s = Some (col1 nev) /\
            Survey.tvd s = Some (col2 nev)
     else Survey.n s = Init.n a /\ Survey.e s = Init.e a /\
          Survey.tvd s = Init.tvd a).
Proof.
  rewrite Survey_run.
  destruct (__init__ a Survey.blank tr) as [[r s] tr0] eqn:Hinit.
  apply __init___spec in Hinit.
  intros Hrun. destruct r as [[]|e]; [|discriminate].
  injection Hrun as <- <- <-.
  exists s. rewrite lookup_snoc.
  destruct Hinit as (_ & _ & _ & _ & _ & _ & _ & _ & _ & _ & _ & _ & _
                     & Hxyz & Hnev & _).
  auto.
Qed.

(** C8.  With the recognized [error_model], the stored [cov_hla] and
    [cov_nev] are the outputs of the error model on the instance's degree
    table, start location and well-reference parameters, transposed from
    the axis-major layout (3,3,n) to the station-major layout (n,3,3):
    entry [k][j][i] of the stored array is entry [i][j][k] of the output,
    whatever covariances the caller supplied; with no [error_model], the
    caller's [cov_hla] and [cov_nev] are stored as they are and the error
    model is not called. *)
Theorem covariance_resolution (a : Init.args)
    (st : list Survey.t) (tr : list event)
    (l : loc) (st' : list Survey.t) (tr' : list event) :
  Survey a st tr = (Ok l, st', tr') ->
  exists s,
    st' !! l = Some s /\
    match Init.error_model a with
    | Some em =>
        em = recognized /\
        let out := ErrorModel (Survey.survey_deg s) (Init.start_xyz a)
                              (Init.well_ref_params a) in
        Survey.cov_hla s = Some (T3 (ErrorModel.cov_HLAs out)) /\
        Survey.cov_nev s = Some (T3 (ErrorModel.cov_NEVs out)) /\
        (forall n : nat,
           has_shape 3 3 n (ErrorModel.cov_HLAs out) = true ->
           exists hla,
             Survey.cov_hla s = Some hla /\
             has_shape n 3 3 hla = true /\
             forall i j k : nat,
               entry hla k j i = entry (ErrorModel.cov_HLAs out) i j k) /\
        (forall n : nat,
           has_shape 3 3 n (ErrorModel.cov_NEVs out) = true ->
           exists nev,
             Survey.cov_nev s = Some nev /\
             has_shape n 3 3 nev = true /\
             forall i j k : nat,
               entry nev k j i = entry (ErrorModel.cov_NEVs out) i j k)
    | None =>
        Survey.cov_hla s = Init.cov_hla a /\
        Survey.cov_nev s = Init.cov_nev a /\
        exists evs, tr' = tr ++ evs /\ (CallErrorModel ∉ evs)
    end.
Proof.
  rewrite Survey_run.
  destruct (__init__ a Survey.blank tr) as [[r s] tr0] eqn:Hinit.
  apply __init___spec in Hinit.
  intros Hrun. destruct r as [[]|e]; [|discriminate].
  injection Hrun as <- <- <-.
  exists s. rewrite lookup_snoc. split; [reflexivity|].
  destruct Hinit as (_ & _ & Hsx & _ & _ & _ & _ & _ & _ & _ & _ & _ & _
                     & _ & _ & _ & _ & Hwr & Hcov & Htr).
  destruct (Init.error_model a) as [em|].
  - rewrite <- Hsx, <- Hwr. cbv zeta in *.
    destruct Hcov as (Hrec & _ & Hh & Hn).
    split; [exact Hrec|]. split; [exact Hh|]. split; [exact Hn|]. split.
    + intros n Hshape. destruct (T3_station_major _ n Hshape) as [Hs' Hent].
      eexists. split; [exact Hh|]. split; [exact Hs'|exact Hent].
    + intros n Hshape. destruct (T3_station_major _ n Hshape) as [Hs' Hent].
      eexists. split; [exact Hn|]. split; [exact Hs'|exact Hent].
  - destruct Hcov as (-> & -> & _). do 2 (split; [reflexivity|]).
    eexists. split; [exact Htr|]. simpl.
    destruct (is_None (Init.n a)), (is_None (Init.vec a)); not_in_list.
Qed.

(** C2, as amended.  Construction with an [error_model] that is set but
    is not the recognized tag returns no instance.  It fails with
    InvalidConfiguration whenever the earlier construction steps succeed,
    and that failure comes after the minimum-curvature computation has run
    and before any call of the error model. *)
Theorem unrecognized_error_model (a : Init.args) (em : string)
    (st : list Survey.t) (tr : list event) :
  Init.error_model a = Some em ->
  em <> recognized ->
  exists e st' tr',
    Survey a st tr = (Err e, st', tr') /\
    (exists evs, tr' = tr ++ evs /\
       (CallErrorModel ∉ evs) /\
       (e = InvalidConfiguration -> CallMinCurve ∈ evs)) /\
    (positional_inputs_ok a -> e = InvalidConfiguration).
Proof.
  intros Hem Hne. rewrite Survey_run.
  destruct (__init__ a Survey.blank tr) as [[r s] tr0] eqn:Hinit.
  apply __init___spec in Hinit. rewrite Hem in Hinit.
  destruct r as [[]|e].
  - destruct Hinit as (_ & _ & _ & _ & _ & _ & _ & _ & _ & _ & _ & _ & _
                       & _ & _ & _ & _ & _ & (Hrec & _) & _). contradiction.
  - exists e, (st ++ [s]), tr0. split; [reflexivity|].
    destruct Hinit as [(-> & -> & Hlen)|[(-> & -> & Hn & Hx & Hstack)|(-> & _ & ->)]].
    + split.
      * exists []. split; [now rewrite app_nil_r|].
        split; [apply not_elem_of_nil|discriminate].
      * intros (H1 & H2 & _). tauto.
    + split.
      * eexists. split; [reflexivity|]. split; [not_in_list|discriminate].
      * intros (_ & _ & Hpos). destruct (Hpos Hn Hx) as [pos Hpos'].
        rewrite Hpos' in Hstack. discriminate.
    + split; [|reflexivity].
      eexists. split; [reflexivity|]. split.
      * destruct (is_None (Init.n a)), (is_None (Init.vec a)); not_in_list.
      * intros _. simpl. apply elem_of_cons. now left.
Qed.

(** Construction with [inc] or [azi] of another length than [md] stops at
    the stacking of the survey tables, before anything is called. *)
Lemma __init___length_mismatch (a : Init.args) (s0 : Survey.t)
    (tr : list event) :
  ~ (length (Init.inc a) = length (Init.md a) /\
     length (Init.azi a) = length (Init.md a)) ->
  exists s, __init__ a s0 tr = (Err ValueError, s, tr).
Proof.
  intros Hlen.
  assert (Hsd : forall f : float -> float,
             stack3 (Init.md a) (map f (Init.inc a)) (map f (Init.azi a))
             = Err ValueError).
  { intros f. unfold stack3. rewrite !length_map.
    destruct (Nat.eqb (length (Init.md a)) (length (Init.inc a))) eqn:H1;
      [|reflexivity].
    destruct (Nat.eqb (length (Init.inc a)) (length (Init.azi a))) eqn:H2;
      [|reflexivity].
    apply Nat.eqb_eq in H1, H2. exfalso. apply Hlen. lia. }
  pose proof (Hsd (fun v => v)) as Hid. rewrite !map_id in Hid.
  unfold __init__, _make_angles.
  destruct a as [md inc azi n e tvd x y z vec rad cn ch em wr sx sn dg u].
  simpl in *.
  destruct dg; run; rewrite ?Hid, ?Hsd; run; eauto.
Qed.

(** What a successful construction requires: an instance is returned only
    when [md], [inc] and [azi] have one length, supplied positions that
    must be projected stack into an (n,3) array, and [error_model] is
    absent or recognized; and when [inc] or [azi] has another length than
    [md], construction fails with a ValueError before any imported function
    is called. *)
Theorem construction_requirements (a : Init.args)
    (st : list Survey.t) (tr : list event) :
  (forall l st' tr',
     Survey a st tr = (Ok l, st', tr') ->
     positional_inputs_ok a /\ tag_ok a) /\
  (~ (length (Init.inc a) = length (Init.md a) /\
      length (Init.azi a) = length (Init.md a)) ->
   exists st', Survey a st tr = (Err ValueError, st', tr)).
Proof.
  split.
  - intros l st' tr'. rewrite Survey_run.
    destruct (__init__ a Survey.blank tr) as [[r s] tr0] eqn:Hinit.
    apply __init___spec in Hinit. unfold positional_inputs_ok, tag_ok.
    intros Hrun. destruct r as [[]|e]; [|discriminate].
    destruct Hinit as (_ & _ & _ & _ & Hmd & Hang & _ & Hsd & _ & _ & _ & _ & _
                       & Hxyz & Hnev & _ & _ & _ & Hem & _).
    apply stack3_Ok_inv in Hsd as [Hl1 Hl2]. rewrite Hmd in Hl1, Hl2.
    unfold angles_of in Hang.
    assert (Hlen : length (Init.inc a) = length (Init.md a) /\
                   length (Init.azi a) = length (Init.md a)).
    { destruct (Init.deg a); injection Hang as _ _ Hi Ha;
        rewrite Hi in Hl1; rewrite Ha in Hl2;
        rewrite ?length_map in Hl1, Hl2; auto. }
    destruct Hlen as [Hli Hla]. repeat split; auto.
    + intros Hn Hx. rewrite Hn in Hnev. rewrite Hx in Hxyz.
      destruct Hnev as (pos & Hpos & _). destruct Hxyz as (<- & <- & <-). eauto.
    + destruct (Init.error_model a) as [em|]; [|auto].
      destruct Hem as [-> _]. auto.
  - intros Hlen. rewrite Survey_run.
    destruct (__init___length_mismatch a Survey.blank tr Hlen) as [s ->].
    eauto.
Qed.

(** The run of [interpolate_survey] on a tangent interval, every lookup
    given. *)
Lemma interpolate_survey_tangent_run (survey : loc) (x : float) (index : Z)
    (st : list Survey.t) (tr : list event) (sv : Survey.t)
    (d dl md0 inc0 azi0 : float) (xyz nev : list (float * float * float))
    (pxyz pnev : float * float * float) :
  st !! survey = Some sv ->
  index < Z.of_nat (length (Survey.md sv)) - 1 ->
  py_index (Survey.delta_md sv) (index + 1) = Some d ->
  PrimFloat.leb x d = true ->
  py_index (Survey.dogleg sv) (index + 1) = Some dl ->
  PrimFloat.eqb dl fzero = true ->
  py_index (Survey.md sv) index = Some md0 ->
  py_index (Survey.inc_rad sv) index = Some inc0 ->
  py_index (Survey.azi_rad sv) index = Some azi0 ->
  stack3_opt (Survey.x sv) (Survey.y sv) (Survey.z sv) = Ok xyz ->
  py_index xyz index = Some pxyz ->
  stack3_opt (Survey.n sv) (Survey.e sv) (Survey.tvd sv) = Ok nev ->
  py_index nev index = Some pnev ->
  exists s,
    interpolate_survey survey x index st tr
      = (Ok (length st), st ++ [s],
         tr ++ [CallMinCurve; CallGetNev; CallGetVec; CallMinCurve]).
Proof.
  intros Hsv Hidx Hd Hle Hdl Hz Hmd Hinc Hazi Hxyz Hpx Hnev Hpn.
  unfold interpolate_survey, get. run. rewrite Hsv. run.
  rewrite (proj2 (Z.ltb_lt _ _) Hidx). run.
  rewrite Hd. run. rewrite Hle. run. rewrite Hdl. run. rewrite Hz. run.
  rewrite Hazi. run. rewrite Hinc. run. rewrite Hmd. run.
  rewrite Hxyz. run. rewrite Hpx. run. rewrite Hnev. run. rewrite Hpn. run.
  match goal with
  | |- context [Survey ?a ?s ?t] =>
      destruct (Survey_fresh a s t) as (s0 & HS & _ & _ & _ & _ & _ & _ & Hx0 & Hn0 & Hv0);
      [reflexivity..|]; rewrite HS; run
  end.
  match goal with
  | |- context [on _ _ _ ?t] =>
      destruct (on_min_curve_again st s0 t Hx0 Hn0 Hv0) as (s1 & Hon & _);
      rewrite Hon; run
  end.
  exists s1. rewrite <- app_assoc. reflexivity.
Qed.

(** On a well-formed instance, for an index in [0, n-2] and an [x] within
    the interval, interpolation on a tangent interval returns a new
    instance, with the construction calls only. *)
Theorem tangent_interpolation_succeeds (survey : loc) (x : float) (index : Z)
    (st : list Survey.t) (tr : list event) (sv : Survey.t) (d dl : float) :
  st !! survey = Some sv ->
  well_formed sv ->
  0 <= index < Z.of_nat (length (Survey.md sv)) - 1 ->
  py_index (Survey.delta_md sv) (index + 1) = Some d ->
  PrimFloat.leb x d = true ->
  py_index (Survey.dogleg sv) (index + 1) = Some dl ->
  PrimFloat.eqb dl fzero = true ->
  exists s,
    interpolate_survey survey x index st tr
      = (Ok (length st), st ++ [s],
         tr ++ [CallMinCurve; CallGetNev; CallGetVec; CallMinCurve]).
Proof.
  intros Hsv (Hli & Hla & _ & _ & xyz & nev & Hxyz & Hnev & Hlx & Hln)
         [Hlo Hhi] Hd Hle Hdl Hz.
  destruct (py_index_Some (Survey.md sv) index) as [md0 Hmd]; [lia|].
  destruct (py_index_Some (Survey.inc_rad sv) index) as [inc0 Hinc]; [lia|].
  destruct (py_index_Some (Survey.azi_rad sv) index) as [azi0 Hazi]; [lia|].
  destruct (py_index_Some xyz index) as [pxyz Hpx]; [lia|].
  destruct (py_index_Some nev index) as [pnev Hpn]; [lia|].
  eapply interpolate_survey_tangent_run; eauto.
Qed.
End Claims.

(** ** The covariance builder *)

(** C7.  What [make_cov] does on arguments of one length n.  On three
    numpy arrays it returns n matrices; the matrix of station k is
    diagonal with entries [a_k * a_k], [b_k * b_k], [c_k * c_k] when
    [diag] is true, and has in addition the off-diagonal entries
    [a_k * b_k], [a_k * c_k], [b_k * c_k], symmetrically, when [diag] is
    false.  As soon as one argument is a Python list, which the docstring
    allows, the product of that list with itself raises a TypeError and
    nothing is returned. *)
Theorem make_cov_spec (a b c : array_like) (diag : bool) :
  length (values a) = length (values b) ->
  length (values b) = length (values c) ->
  match a, b, c with
  | NdArray va, NdArray vb, NdArray vc =>
      exists cov : array3,
        make_cov a b c diag = Ok cov /\
        length cov = length va /\
        forall (k : nat) (ak bk ck : float),
          va !! k = Some ak -> vb !! k = Some bk -> vc !! k = Some ck ->
          let sq u := PrimFloat.mul u u in
          let m := if diag
                   then [[sq ak; fzero; fzero];
                         [fzero; sq bk; fzero];
                         [fzero; fzero; sq ck]]
                   else [[sq ak; PrimFloat.mul ak bk; PrimFloat.mul ak ck];
                         [PrimFloat.mul ak bk; sq bk; PrimFloat.mul bk ck];
                         [PrimFloat.mul ak ck; PrimFloat.mul bk ck; sq ck]] in
          cov !! k = Some m /\
          forall i j : nat, (m !! i) ≫= (.!! j) = (m !! j) ≫= (.!! i)
  | _, _, _ => make_cov a b c diag = Err TypeError
  end.
Proof.
  intros Hab Hbc.
  assert (Hac : length (values a) = length (values c)) by congruence.
  unfold make_cov.
  rewrite (py_mul_same_length a a), (py_mul_same_length b b),
    (py_mul_same_length c c), (py_mul_same_length a b),
    (py_mul_same_length a c), (py_mul_same_length b c) by congruence.
  destruct a as [a|a], b as [b|b], c as [c|c]; simpl in Hab, Hbc, Hac;
    try (destruct diag; reflexivity).
  cbn [values].
  destruct diag.
  - simpl.
    unfold np_array3, same_length. simpl.
    rewrite !length_zip_same by congruence.
    unfold zeros_like at 1 2 3 4 5 6. rewrite !length_map.
    rewrite <- Hbc, <- Hab, !Nat.eqb_refl. simpl.
    eexists. split; [reflexivity|]. split.
    + unfold T3. simpl. rewrite length_map, length_seq, length_zip_same; auto.
    + intros k ak bk ck Ha Hb Hc. cbv zeta. split.
      * unfold T3. simpl. rewrite length_zip_same by auto.
        rewrite lookup_map, lookup_seq_lt by (eapply lookup_lt_Some; eauto).
        simpl. unfold at3. simpl.
        rewrite !nth_zeros_like.
        rewrite (nth_zip_with_mul a a k ak ak), (nth_zip_with_mul b b k bk bk),
          (nth_zip_with_mul c c k ck ck) by auto.
        reflexivity.
      * intros [|[|[|i]]] [|[|[|j]]]; reflexivity.
  - simpl.
    unfold np_array3, same_length. simpl.
    rewrite !length_zip_same by congruence.
    rewrite <- Hbc, <- Hab, !Nat.eqb_refl. simpl.
    eexists. split; [reflexivity|]. split.
    + unfold T3. simpl. rewrite length_map, length_seq, length_zip_same; auto.
    + intros k ak bk ck Ha Hb Hc. cbv zeta. split.
      * unfold T3. simpl. rewrite length_zip_same by auto.
        rewrite lookup_map, lookup_seq_lt by (eapply lookup_lt_Some; eauto).
        simpl. unfold at3. simpl.
        rewrite (nth_zip_with_mul a a k ak ak), (nth_zip_with_mul b b k bk bk),
          (nth_zip_with_mul c c k ck ck), (nth_zip_with_mul a b k ak bk),
          (nth_zip_with_mul a c k ak ck), (nth_zip_with_mul b c k bk ck) by auto.
        reflexivity.
      * intros [|[|[|i]]] [|[|[|j]]]; reflexivity.
Qed.

(** ** Further behaviour of construction and interpolation *)

Section Behaviour.
Context `{Externals}.

(** [_min_curve] on an instance that already carries positions, NEV
    coordinates, tangent vectors and the solver's outputs for its own
    data assigns nothing new. *)
Lemma _min_curve_fixed (s : Survey.t) (tr : list event) :
  is_None (Survey.x s) = false ->
  is_None (Survey.n s) = false ->
  is_None (Survey.vec s) = false ->
  Survey.dogleg s = MinCurve.dogleg (solver_of s) ->
  Survey.rf s = MinCurve.rf (solver_of s) ->
  Survey.delta_md s = MinCurve.delta_md (solver_of s) ->
  Survey.dls s = MinCurve.dls (solver_of s) ->
  _min_curve s tr = (Ok (), s, tr ++ [CallMinCurve]).
Proof.
  unfold _min_curve, solver_of.
  destruct s as [u dg sx sn md ir ar idg adg rad sdg srd
                 n e tvd x y z vec dl rf dm dls em wr ch cn er].
  simpl. intros Hx Hn Hv -> -> -> ->.
  destruct x, n, vec; try discriminate. run. reflexivity.
Qed.

(** [_min_curve] is idempotent: once it has succeeded on an instance, a
    second run leaves every attribute as it is; it calls [MinCurve] again
    and neither [get_nev] nor [get_vec]. *)
Theorem min_curve_idempotent (s : Survey.t) (tr : list event)
    (s1 : Survey.t) (tr1 : list event) :
  _min_curve s tr = (Ok (), s1, tr1) ->
  forall tr2 : list event,
    _min_curve s1 tr2 = (Ok (), s1, tr2 ++ [CallMinCurve]).
Proof.
  unfold _min_curve, _get_nev.
  destruct s as [u dg sx sn md ir ar idg adg rad sdg srd
                 n e tvd x y z vec dl rf dm dls em wr ch cn er].
  intros Hrun tr2. run_in Hrun.
  destruct x as [x|], n as [n|]; run_in Hrun;
    try rewrite stack3_opt_unstack3 in Hrun; run_in Hrun;
    try (destruct (stack3_opt (Some x) y z) as [pos|err] eqn:Hpos; run_in Hrun);
    destruct vec as [vec|]; run_in Hrun; simplify_eq; run; reflexivity.
Qed.

(** A successful [interpolate_survey] is the construction of a Survey
    from two stations, after calls of [math.sin] and [get_angles] only. *)
Lemma interpolate_survey_builds (survey : loc) (x : float) (index : Z)
    (st : list Survey.t) (tr : list event) (sv : Survey.t)
    (l : loc) (st' : list Survey.t) (tr' : list event) :
  st !! survey = Some sv ->
  interpolate_survey survey x index st tr = (Ok l, st', tr') ->
  exists md0 inc0 azi0 inc azi xyz nev pxyz pnev tr0 s,
    py_index (Survey.md sv) index = Some md0 /\
    py_index (Survey.inc_rad sv) index = Some inc0 /\
    py_index (Survey.azi_rad sv) index = Some azi0 /\
    stack3_opt (Survey.x sv) (Survey.y sv) (Survey.z sv) = Ok xyz /\
    py_index xyz index = Some pxyz /\
    stack3_opt (Survey.n sv) (Survey.e sv) (Survey.tvd sv) = Ok nev /\
    py_index nev index = Some pnev /\
    (exists evs, tr0 = tr ++ evs /\
                 forall ev, ev ∈ evs -> ev = CallSin \/ ev = CallGetAngles) /\
    __init__ (station_pair md0 x inc0 inc azi0 azi pxyz pnev) Survey.blank tr0
      = (Ok (), s, tr0 ++ [CallMinCurve; CallGetNev; CallGetVec]) /\
    l = length st /\ st' = st ++ [s] /\
    tr' = tr0 ++ [CallMinCurve; CallGetNev; CallGetVec; CallMinCurve].
Proof.
  intros Hsv Hrun. unfold interpolate_survey, get, math_sin in Hrun.
  run_in Hrun. rewrite Hsv in Hrun. run_in Hrun.
  repeat (match type of Hrun with
          | context [if ?c then _ else _] => destruct c eqn:?
          | context [match py_index (get_angles ?t) ?i with _ => _ end] =>
              destruct (py_index (get_angles t) i) as [[? ?]|] eqn:?
          | context [match py_index ?l ?i with _ => _ end] =>
              destruct (py_index l i) eqn:?
          | context [match Survey.vec ?v with _ => _ end] =>
              destruct (Survey.vec v) eqn:?
          | context [match stack3_opt ?c0 ?c1 ?c2 with _ => _ end] =>
              destruct (stack3_opt c0 c1 c2) eqn:?
          end; run_in Hrun; try discriminate Hrun).
  all: rewrite Survey_run in Hrun.
  all: match type of Hrun with
       | context [__init__ ?a ?b ?t] =>
           destruct (__init__ a b t) as [[r0 s0] tr1] eqn:Hinit;
           pose proof (__init___spec _ _ _ _ _ _ Hinit) as Hspec
       end.
  all: destruct r0 as [[]|e0]; run_in Hrun; [|discriminate Hrun].
  all: simpl in Hspec.
  all: destruct Hspec as (_ & _ & _ & _ & _ & _ & _ & _ & _ & Hdl & Hrf & Hdm & Hdls
                          & (Hx & _) & (pos & _ & Hn & _) & Hv & _ & _ & _ & Htr).
  all: unfold on in Hrun; rewrite lookup_snoc in Hrun.
  all: rewrite (_min_curve_fixed s0 tr1) in Hrun;
         [|rewrite ?Hx, ?Hn, ?Hv; auto..].
  all: rewrite insert_snoc in Hrun; run_in Hrun.
  all: injection Hrun as <- <- <-.
  all: subst tr1.
  all: do 11 eexists.
  all: do 7 (split; [first [eassumption | reflexivity]|]).
  all: (split; [|split; [exact Hinit|]]).
  all: try (split; [reflexivity|]; split; [reflexivity|]).
  all: rewrite <- ?app_assoc; simpl.
  all: try reflexivity.
  - exists []. rewrite app_nil_r. split; [reflexivity|]. intros ev Hev.
    apply elem_of_nil in Hev. contradiction.
  - eexists. split; [reflexivity|]. intros ev Hev.
    repeat (apply elem_of_cons in Hev as [->|Hev]; [auto|]).
    apply elem_of_nil in Hev. contradiction.
Qed.

(** The Survey returned by [interpolate_survey] takes nothing but the
    geometry from its input: its unit is "meters" and its angles are in
    radians ([deg] false) whatever the input's are, it has no radius, no
    error model, no well-reference parameters and no covariance, and no
    error model is called.  Its start position and start NEV are the
    position and the NEV coordinates of the input's station at [index]. *)
Theorem interpolated_survey_attributes (survey : loc) (x : float) (index : Z)
    (st : list Survey.t) (tr : list event) (sv : Survey.t)
    (l : loc) (st' : list Survey.t) (tr' : list event) :
  st !! survey = Some sv ->
  interpolate_survey survey x index st tr = (Ok l, st', tr') ->
  exists s xyz nev,
    st' !! l = Some s /\
    Survey.unit s = "meters" /\
    Survey.deg s = false /\
    Survey.radius s = None /\
    Survey.error_model s = None /\
    Survey.well_ref_params s = None /\
    Survey.cov_hla s = None /\
    Survey.cov_nev s = None /\
    stack3_opt (Survey.x sv) (Survey.y sv) (Survey.z sv) = Ok xyz /\
    py_index xyz index = Some (Survey.start_xyz s) /\
    stack3_opt (Survey.n sv) (Survey.e sv) (Survey.tvd sv) = Ok nev /\
    py_index nev index = Some (Survey.start_nev s) /\
    exists evs, tr' = tr ++ evs /\ (CallErrorModel ∉ evs).
Proof.
  intros Hsv Hrun.
  destruct (interpolate_survey_builds _ _ _ _ _ _ _ _ _ Hsv Hrun)
    as (md0 & inc0 & azi0 & inc & azi & xyz & nev & pxyz & pnev & tr0 & s
        & _ & _ & _ & Hxyz & Hpx & Hnev & Hpn & (evs & -> & Hevs) & Hinit
        & -> & -> & ->).
  apply __init___spec in Hinit. simpl in Hinit.
  destruct Hinit as (Hu & Hd & Hsx & Hsn & _ & _ & Hrad & _ & _ & _ & _ & _ & _
                     & _ & _ & _ & Hem & Hwr & (Hch & Hcn & _) & _).
  exists s, xyz, nev. rewrite lookup_snoc, Hsx, Hsn.
  do 12 (split; [assumption || reflexivity|]).
  eexists. split; [rewrite <- app_assoc; reflexivity|].
  intros Hin. apply elem_of_app in Hin as [Hin|Hin].
  - destruct (Hevs _ Hin); discriminate.
  - revert Hin. not_in_list.
Qed.

(** The instance [interpolate_survey] returns is the one the constructor
    builds from the two stations: the [_min_curve()] call that follows the
    construction (line 269) changes no attribute, it only calls [MinCurve]
    once more. *)
Theorem interpolation_is_construction (survey : loc) (x : float) (index : Z)
    (st : list Survey.t) (tr : list event) (sv : Survey.t)
    (l : loc) (st' : list Survey.t) (tr' : list event) :
  st !! survey = Some sv ->
  interpolate_survey survey x index st tr = (Ok l, st', tr') ->
  exists md0 inc0 azi0 inc azi xyz nev pxyz pnev tr0,
    py_index (Survey.md sv) index = Some md0 /\
    py_index (Survey.inc_rad sv) index = Some inc0 /\
    py_index (Survey.azi_rad sv) index = Some azi0 /\
    stack3_opt (Survey.x sv) (Survey.y sv) (Survey.z sv) = Ok xyz /\
    py_index xyz index = Some pxyz /\
    stack3_opt (Survey.n sv) (Survey.e sv) (Survey.tvd sv) = Ok nev /\
    py_index nev index = Some pnev /\
    Survey (station_pair md0 x inc0 inc azi0 azi pxyz pnev) st tr0
      = (Ok l, st', tr0 ++ [CallMinCurve; CallGetNev; CallGetVec]) /\
    tr' = tr0 ++ [CallMinCurve; CallGetNev; CallGetVec; CallMinCurve].
Proof.
  intros Hsv Hrun.
  destruct (interpolate_survey_builds _ _ _ _ _ _ _ _ _ Hsv Hrun)
    as (md0 & inc0 & azi0 & inc & azi & xyz & nev & pxyz & pnev & tr0 & s
        & Hmd & Hinc & Hazi & Hxyz & Hpx & Hnev & Hpn & _ & Hinit
        & -> & -> & ->).
  exists md0, inc0, azi0, inc, azi, xyz, nev, pxyz, pnev, tr0.
  do 7 (split; [assumption|]). split; [|reflexivity].
  rewrite Survey_run, Hinit. reflexivity.
Qed.

(** A successful construction calls every imported function at most
    once, in this order: [MinCurve]; [get_nev] when [n] is not supplied;
    [get_vec] when [vec] is not supplied; [ErrorModel] when an
    [error_model] is given. *)
Theorem construction_calls (a : Init.args)
    (st : list Survey.t) (tr : list event)
    (l : loc) (st' : list Survey.t) (tr' : list event) :
  Survey a st tr = (Ok l, st', tr') ->
  tr' = tr ++ [CallMinCurve]
           ++ (if is_None (Init.n a) then [CallGetNev] else [])
           ++ (if is_None (Init.vec a) then [CallGetVec] else [])
           ++ (if is_None (Init.error_model a) then [] else [CallErrorModel]).
Proof.
  rewrite Survey_run.
  destruct (__init__ a Survey.blank tr) as [[r s] tr0] eqn:Hinit.
  apply __init___spec in Hinit.
  intros Hrun. destruct r as [[]|e]; [|discriminate].
  injection Hrun as <- <- <-.
  destruct Hinit as (_ & _ & _ & _ & _ & _ & _ & _ & _ & _ & _ & _ & _
                     & _ & _ & _ & _ & _ & _ & Htr).
  exact Htr.
Qed.

(** Supplied tangent vectors are kept as they are and [get_vec] is not
    called; without them, [vec] is [get_vec] of the instance's radian
    arrays, called with [deg=False] whatever the unit of the arguments. *)
Theorem tangent_vector_override (a : Init.args)
    (st : list Survey.t) (tr : list event)
    (l : loc) (st' : list Survey.t) (tr' : list event) :
  Survey a st tr = (Ok l, st', tr') ->
  exists s,
    st' !! l = Some s /\
    match Init.vec a with
    | Some v =>
        Survey.vec s = Some v /\
        exists evs, tr' = tr ++ evs /\ (CallGetVec ∉ evs)
    | None =>
        Survey.vec s
          = Some (get_vec (Survey.inc_rad s) (Survey.azi_rad s) false)
    end.
Proof.
  rewrite Survey_run.
  destruct (__init__ a Survey.blank tr) as [[r s] tr0] eqn:Hinit.
  apply __init___spec in Hinit.
  intros Hrun. destruct r as [[]|e]; [|discriminate].
  injection Hrun as <- <- <-.
  exists s. rewrite lookup_snoc. split; [reflexivity|].
  destruct Hinit as (_ & _ & _ & _ & _ & _ & _ & _ & _ & _ & _ & _ & _
                     & _ & _ & Hvec & _ & _ & _ & Htr).
  destruct (Init.vec a) as [v|]; simpl in *; [|exact Hvec].
  split; [exact Hvec|]. eexists. split; [exact Htr|].
  destruct (is_None (Init.n a)), (is_None (Init.error_model a)); not_in_list.
Qed.

(** Rows of stacked columns. *)
Lemma zip3_lookup (c0 c1 c2 : array1) (i : nat) (u v w : float) :
  zip3 c0 c1 c2 !! i = Some (u, v, w) <->
  c0 !! i = Some u /\ c1 !! i = Some v /\ c2 !! i = Some w.
Proof.
  revert c1 c2 i.
  induction c0 as [|u0 c0 IH]; intros [|v0 c1] [|w0 c2] i; simpl;
    try (split; [discriminate|intros (? & ? & ?); discriminate]).
  destruct i as [|i]; simpl.
  - split; [intros [= -> -> ->]; auto|intros ([= ->] & [= ->] & [= ->]); auto].
  - apply IH.
Qed.

Lemma stack3_length (c0 c1 c2 : array1) (rows : array2) :
  stack3 c0 c1 c2 = Ok rows -> length rows = length c0.
Proof.
  intros Hs. pose proof (stack3_Ok_inv _ _ _ _ Hs) as [H1 H2].
  unfold stack3 in Hs. case_match; simplify_eq.
  clear -H1 H2. revert c1 c2 H1 H2.
  induction c0 as [|u c0 IH]; intros [|v c1] [|w c2] H1 H2; simpl in *;
    try discriminate; auto.
Qed.

Lemma stack3_lookup (c0 c1 c2 : array1) (rows : array2) (i : nat)
    (u v w : float) :
  stack3 c0 c1 c2 = Ok rows ->
  rows !! i = Some (u, v, w) <->
  c0 !! i = Some u /\ c1 !! i = Some v /\ c2 !! i = Some w.
Proof.
  unfold stack3. intros Hs. case_match; simplify_eq. apply zip3_lookup.
Qed.

(** A constructed instance stores the supplied angles untouched in the
    arrays of their own unit and converts them for the other unit; the
    four angle arrays and the two survey tables have the length of [md],
    and row [i] of a table is ([md[i]], inclination, azimuth) of station
    [i] in the table's unit. *)
Theorem construction_angle_tables (a : Init.args)
    (st : list Survey.t) (tr : list event)
    (l : loc) (st' : list Survey.t) (tr' : list event) :
  Survey a st tr = (Ok l, st', tr') ->
  exists s,
    st' !! l = Some s /\
    Survey.md s = Init.md a /\
    (if Init.deg a
     then Survey.inc_deg s = Init.inc a /\
          Survey.azi_deg s = Init.azi a /\
          Survey.inc_rad s = map np_radians (Init.inc a) /\
          Survey.azi_rad s = map np_radians (Init.azi a)
     else Survey.inc_rad s = Init.inc a /\
          Survey.azi_rad s = Init.azi a /\
          Survey.inc_deg s = map np_degrees (Init.inc a) /\
          Survey.azi_deg s = map np_degrees (Init.azi a)) /\
    length (Survey.inc_rad s) = length (Survey.md s) /\
    length (Survey.azi_rad s) = length (Survey.md s) /\
    length (Survey.inc_deg s) = length (Survey.md s) /\
    length (Survey.azi_deg s) = length (Survey.md s) /\
    length (Survey.survey_deg s) = length (Survey.md s) /\
    length (Survey.survey_rad s) = length (Survey.md s) /\
    forall (i : nat) (m u v : float),
      (Survey.survey_deg s !! i = Some (m, u, v) <->
       Survey.md s !! i = Some m /\ Survey.inc_deg s !! i = Some u /\
       Survey.azi_deg s !! i = Some v) /\
      (Survey.survey_rad s !! i = Some (m, u, v) <->
       Survey.md s !! i = Some m /\ Survey.inc_rad s !! i = Some u /\
       Survey.azi_rad s !! i = Some v).
Proof.
  rewrite Survey_run.
  destruct (__init__ a Survey.blank tr) as [[r s] tr0] eqn:Hinit.
  apply __init___spec in Hinit.
  intros Hrun. destruct r as [[]|e]; [|discriminate].
  injection Hrun as <- <- <-.
  exists s. rewrite lookup_snoc. split; [reflexivity|].
  destruct Hinit as (_ & _ & _ & _ & Hmd & Hang & _ & Hsd & Hsr & _).
  pose proof (stack3_Ok_inv _ _ _ _ Hsd) as [Hd1 Hd2].
  pose proof (stack3_Ok_inv _ _ _ _ Hsr) as [Hr1 Hr2].
  split; [exact Hmd|]. split.
  { unfold angles_of in Hang.
    destruct (Init.deg a); injection Hang as -> -> -> ->; auto. }
  do 4 (split; [assumption|]).
  split; [exact (stack3_length _ _ _ _ Hsd)|].
  split; [exact (stack3_length _ _ _ _ Hsr)|].
  intros i m u v. split.
  - exact (stack3_lookup _ _ _ _ i m u v Hsd).
  - exact (stack3_lookup _ _ _ _ i m u v Hsr).
Qed.

(** Negative indices. *)
Lemma py_index_wrap {A : Type} (l : list A) (i n : Z) :
  n = Z.of_nat (length l) -> - n <= i < 0 ->
  py_index l i = py_index l (i + n).
Proof.
  intros -> [Hlo Hhi]. unfold py_index.
  rewrite (proj2 (Z.leb_gt 0 i)) by lia.
  rewrite (proj2 (Z.leb_le _ i)) by lia.
  rewrite (proj2 (Z.leb_le 0 _)) by lia.
  f_equal. lia.
Qed.

Lemma py_index_below {A : Type} (l : list A) (i : Z) :
  i < - Z.of_nat (length l) -> py_index l i = None.
Proof.
  intros Hlo. unfold py_index.
  rewrite (proj2 (Z.leb_gt 0 i)) by lia.
  rewrite (proj2 (Z.leb_gt _ i)) by lia. reflexivity.
Qed.

(** A negative index from -n to -2 addresses the interval of the station
    n positions later: on an instance whose arrays have one length n the
    call behaves exactly as with [index + n] (result, store and call
    log). *)
Theorem negative_index_wraps (survey : loc) (x : float) (index : Z)
    (st : list Survey.t) (tr : list event) (sv : Survey.t) :
  st !! survey = Some sv ->
  well_formed sv ->
  (forall vecs, Survey.vec sv = Some vecs ->
                length vecs = length (Survey.md sv)) ->
  - Z.of_nat (length (Survey.md sv)) <= index < -1 ->
  interpolate_survey survey x index st tr
  = interpolate_survey survey x (index + Z.of_nat (length (Survey.md sv))) st tr.
Proof.
  intros Hsv (Hli & Hla & Hldl & Hldm & xyz & nev & Hxyz & Hnev & Hlx & Hln)
         Hvec [Hlo Hhi].
  set (n := Z.of_nat (length (Survey.md sv))) in *.
  unfold interpolate_survey, get, math_sin. run. rewrite Hsv. run.
  fold n.
  rewrite (proj2 (Z.ltb_lt index (n - 1))) by lia.
  rewrite (proj2 (Z.ltb_lt (index + n) (n - 1))) by lia.
  run. rewrite Hxyz, Hnev.
  replace (index + n + 1) with (index + 1 + n) by lia.
  rewrite (py_index_wrap (Survey.delta_md sv) (index + 1) n) by (unfold n; lia).
  rewrite (py_index_wrap (Survey.dogleg sv) (index + 1) n) by (unfold n; lia).
  rewrite (py_index_wrap (Survey.md sv) index n) by (unfold n; lia).
  rewrite (py_index_wrap (Survey.inc_rad sv) index n) by (unfold n; lia).
  rewrite (py_index_wrap (Survey.azi_rad sv) index n) by (unfold n; lia).
  rewrite (py_index_wrap xyz index n) by (unfold n; lia).
  rewrite (py_index_wrap nev index n) by (unfold n; lia).
  destruct (Survey.vec sv) as [vecs|] eqn:Hv; [|reflexivity].
  rewrite (py_index_wrap vecs index n) by (pose proof (Hvec vecs eq_refl); unfold n; lia).
  rewrite (py_index_wrap vecs (index + 1) n)
    by (pose proof (Hvec vecs eq_refl); unfold n; lia).
  reflexivity.
Qed.

(** An index below -n is not refused by the index check: on a survey
    with at least one station such a call fails with another error than
    IndexOutOfRange and leaves the store as it is; below -n-1 it is the
    IndexError of [delta_md[index + 1]], raised before any call. *)
Theorem index_below_every_station (survey : loc) (x : float) (index : Z)
    (st : list Survey.t) (tr : list event) (sv : Survey.t) :
  st !! survey = Some sv ->
  Survey.md sv <> [] ->
  index < - Z.of_nat (length (Survey.md sv)) ->
  (exists e tr',
     interpolate_survey survey x index st tr = (Err e, st, tr') /\
     e <> IndexOutOfRange) /\
  (length (Survey.delta_md sv) = length (Survey.md sv) ->
   index + 1 < - Z.of_nat (length (Survey.md sv)) ->
   interpolate_survey survey x index st tr = (Err IndexError, st, tr)).
Proof.
  intros Hsv Hne Hlo.
  assert (Hpos : 0 < Z.of_nat (length (Survey.md sv))).
  { destruct (Survey.md sv); [congruence|simpl; lia]. }
  split.
  - destruct (interpolate_survey survey x index st tr) as [[r st'] tr'] eqn:Hrun.
    pose proof (interpolate_survey_spec _ _ _ _ _ _ _ _ _ Hsv Hrun) as Hspec.
    destruct r as [l|e].
    + destruct Hspec as (_ & d & dl & md0 & inc0 & azi0 & inc & azi & xyz & nev & s
                         & _ & _ & _ & Hmd & _).
      rewrite py_index_below in Hmd by assumption. discriminate.
    + destruct Hspec as (-> & Hcase). exists e, tr'. split; [reflexivity|].
      destruct Hcase as [(_ & _ & Hge)|[(-> & _)|(_ & [ -> | [ -> | -> ]])]];
        [lia|discriminate..].
  - intros Hlen Hlo'. unfold interpolate_survey, get. run. rewrite Hsv. run.
    rewrite (proj2 (Z.ltb_lt index _)) by lia. run.
    rewrite py_index_below by lia. reflexivity.
Qed.

(** The Survey returned by [interpolate_survey] has a single interval:
    interpolating in it at any index from 1 on fails with
    IndexOutOfRange. *)
Theorem result_has_one_interval (survey : loc) (x : float) (index : Z)
    (st : list Survey.t) (tr : list event) (sv : Survey.t)
    (l : loc) (st' : list Survey.t) (tr' : list event) :
  st !! survey = Some sv ->
  interpolate_survey survey x index st tr = (Ok l, st', tr') ->
  forall (x2 : float) (index2 : Z) (tr2 : list event),
    1 <= index2 ->
    interpolate_survey l x2 index2 st' tr2 = (Err IndexOutOfRange, st', tr2).
Proof.
  intros Hsv Hrun x2 index2 tr2 Hge.
  apply (interpolate_survey_spec _ _ _ _ _ _ _ _ _ Hsv) in Hrun.
  destruct Hrun as (_ & d & dl & md0 & inc0 & azi0 & inc & azi & xyz & nev & s
                    & _ & _ & _ & _ & _ & _ & _ & _ & -> & -> & Hmd & _).
  unfold interpolate_survey, get. run. rewrite lookup_snoc. run.
  rewrite Hmd. simpl length.
  rewrite (proj2 (Z.ltb_ge index2 _)) by (simpl; lia). reflexivity.
Qed.

(** Curved section: on an instance whose arrays have one length, for an
    index in [0, n-2], an [x] not above the interval's delta-MD and a
    non-zero dogleg, [interpolate_survey] returns a new Survey whose
    second station has the angles [get_angles(t)[0]], where [t] is the
    sine-weighted combination of the tangents of the two stations; it
    calls [math.sin] four times and [get_angles] once before the
    construction.  The sines' arguments are finite ([math.sin] raises
    ValueError otherwise), and the sine of the interval's dogleg is not
    zero, so that the two float divisions are defined (Python raises
    ZeroDivisionError on a zero divisor). *)
Theorem curved_section_interpolation (survey : loc) (x : float) (index : Z)
    (st : list Survey.t) (tr : list event) (sv : Survey.t)
    (d dl inc azi : float) (vecs : array2) (t1 t2 : vec3) :
  st !! survey = Some sv ->
  well_formed sv ->
  0 <= index < Z.of_nat (length (Survey.md sv)) - 1 ->
  py_index (Survey.delta_md sv) (index + 1) = Some d ->
  PrimFloat.leb x d = true ->
  py_index (Survey.dogleg sv) (index + 1) = Some dl ->
  PrimFloat.eqb dl fzero = false ->
  Survey.vec sv = Some vecs ->
  py_index vecs index = Some t1 ->
  py_index vecs (index + 1) = Some t2 ->
  PrimFloat.is_infinity dl = false ->
  PrimFloat.is_infinity (partial_dogleg x dl d) = false ->
  PrimFloat.is_infinity (PrimFloat.sub dl (partial_dogleg x dl d)) = false ->
  PrimFloat.eqb (sin dl) fzero = false ->
  py_index (get_angles (interpolated_tangent x dl d t1 t2)) 0 = Some (inc, azi) ->
  exists s md0 inc0 azi0,
    interpolate_survey survey x index st tr
      = (Ok (length st), st ++ [s],
         tr ++ [CallSin; CallSin; CallSin; CallSin; CallGetAngles;
                CallMinCurve; CallGetNev; CallGetVec; CallMinCurve]) /\
    py_index (Survey.md sv) index = Some md0 /\
    py_index (Survey.inc_rad sv) index = Some inc0 /\
    py_index (Survey.azi_rad sv) index = Some azi0 /\
    Survey.md s = [md0; PrimFloat.add md0 x] /\
    Survey.inc_rad s = [inc0; inc] /\
    Survey.azi_rad s = [azi0; azi] /\
    Survey.inc_deg s = [np_degrees inc0; np_degrees inc] /\
    Survey.azi_deg s = [np_degrees azi0; np_degrees azi].
Proof.
  intros Hsv (Hli & Hla & _ & _ & xyz & nev & Hxyz & Hnev & Hlx & Hln)
         [Hlo Hhi] Hd Hle Hdl Hz Hvec Ht1 Ht2 Hi1 Hi2 Hi3 _ Hang.
  unfold interpolated_tangent, partial_dogleg in *.
  destruct (py_index_Some (Survey.md sv) index) as [md0 Hmd]; [lia|].
  destruct (py_index_Some (Survey.inc_rad sv) index) as [inc0 Hinc]; [lia|].
  destruct (py_index_Some (Survey.azi_rad sv) index) as [azi0 Hazi]; [lia|].
  destruct (py_index_Some xyz index) as [pxyz Hpx]; [lia|].
  destruct (py_index_Some nev index) as [pnev Hpn]; [lia|].
  destruct (interpolate_survey survey x index st tr) as [[r st'] tr'] eqn:Hrun.
  pose proof Hrun as Hrun'.
  unfold interpolate_survey, get, math_sin in Hrun'. run_in Hrun'.
  rewrite Hsv in Hrun'. run_in Hrun'.
  rewrite (proj2 (Z.ltb_lt _ _) Hhi) in Hrun'. run_in Hrun'.
  rewrite Hd in Hrun'. run_in Hrun'. rewrite Hle in Hrun'. run_in Hrun'.
  rewrite Hdl in Hrun'. run_in Hrun'. rewrite Hz in Hrun'. run_in Hrun'.
  rewrite Hvec in Hrun'. run_in Hrun'.
  rewrite Ht1 in Hrun'. run_in Hrun'. rewrite Ht2 in Hrun'. run_in Hrun'.
  rewrite Hi3 in Hrun'. run_in Hrun'. rewrite Hi1 in Hrun'. run_in Hrun'.
  rewrite Hi2 in Hrun'. run_in Hrun'.
  rewrite Hang in Hrun'. run_in Hrun'.
  rewrite Hmd in Hrun'. run_in Hrun'. rewrite Hinc in Hrun'. run_in Hrun'.
  rewrite Hazi in Hrun'. run_in Hrun'.
  rewrite Hxyz in Hrun'. run_in Hrun'. rewrite Hpx in Hrun'. run_in Hrun'.
  rewrite Hnev in Hrun'. run_in Hrun'. rewrite Hpn in Hrun'. run_in Hrun'.
  match type of Hrun' with
  | context [Survey ?a ?s ?t] =>
      destruct (Survey_fresh a s t) as (s0 & HS & _ & _ & _ & _ & _ & _ & Hx0 & Hn0 & Hv0);
      [reflexivity..|]; rewrite HS in Hrun'; run_in Hrun'
  end.
  match type of Hrun' with
  | context [on _ _ _ ?t] =>
      destruct (on_min_curve_again st s0 t Hx0 Hn0 Hv0) as (s1 & Hon & _);
      rewrite Hon in Hrun'; run_in Hrun'
  end.
  injection Hrun' as <- <- <-.
  apply (interpolate_survey_spec _ _ _ _ _ _ _ _ _ Hsv) in Hrun.
  destruct Hrun as (_ & d' & dl' & md0' & inc0' & azi0' & inc' & azi' & xyz' & nev' & s
                    & Hd' & _ & Hdl' & Hmd' & Hinc' & Hazi' & _ & _ & _ & Hst & Hmds
                    & Hincs & Hazis & _ & _ & _ & Hid & Had & Hbranch).
  apply app_inj_tail in Hst as [_ <-].
  rewrite Hd in Hd'. injection Hd' as <-.
  rewrite Hdl in Hdl'. injection Hdl' as <-.
  rewrite Hmd in Hmd'. injection Hmd' as <-.
  rewrite Hinc in Hinc'. injection Hinc' as <-.
  rewrite Hazi in Hazi'. injection Hazi' as <-.
  rewrite Hz in Hbranch.
  destruct Hbranch as (vecs' & t1' & t2' & Hvec' & Ht1' & Ht2' & Hang' & _).
  rewrite Hvec in Hvec'. injection Hvec' as <-.
  rewrite Ht1 in Ht1'. injection Ht1' as <-.
  rewrite Ht2 in Ht2'. injection Ht2' as <-.
  cbv zeta in Hang'. rewrite Hang in Hang'. injection Hang' as <- <-.
  exists s1, md0, inc0, azi0.
  rewrite Hid, Had, Hincs, Hazis.
  split; [rewrite <- !app_assoc; reflexivity|].
  repeat split; assumption.
Qed.

(** The geometry of a Survey depends on the angles through the radian
    arrays only: when a construction from degrees succeeds, the
    construction from the same arguments with the angles converted by
    [np.radians] and [deg=False] succeeds too, with the same calls, and
    gives the same stations, solver outputs, positions, NEV coordinates
    and tangent vectors. *)
Theorem geometry_from_radians (a : Init.args)
    (st : list Survey.t) (tr : list event)
    (l : loc) (st' : list Survey.t) (tr' : list event) :
  Init.deg a = true ->
  Survey a st tr = (Ok l, st', tr') ->
  exists s s' st'',
    st' !! l = Some s /\
    Survey (in_radians a) st tr = (Ok l, st'', tr') /\
    st'' !! l = Some s' /\
    same_geometry s s'.
Proof.
  intros Hdeg. rewrite !Survey_run.
  destruct (__init__ a Survey.blank tr) as [[r s] tr0] eqn:Hinit.
  destruct (__init__ (in_radians a) Survey.blank tr) as [[r' s'] tr0'] eqn:Hinit'.
  apply __init___spec in Hinit, Hinit'.
  intros Hrun. destruct r as [[]|e]; [|discriminate].
  injection Hrun as <- <- <-.
  unfold angles_of in Hinit, Hinit'. rewrite Hdeg in Hinit.
  simpl in Hinit'.
  destruct Hinit as (Hu & _ & Hsx & Hsn & Hmd & Hang & _ & Hsd & _ & Hdl & Hrf
                     & Hdm & Hdls & Hxyz & Hnev & Hvec & _ & _ & Hem & Htr).
  injection Hang as Hir Har Hid Had.
  assert (Hsol : forall s2, Survey.md s2 = Init.md a ->
                   Survey.inc_rad s2 = map np_radians (Init.inc a) ->
                   Survey.azi_rad s2 = map np_radians (Init.azi a) ->
                   Survey.start_xyz s2 = Init.start_xyz a ->
                   Survey.unit s2 = Init.unit a ->
                   solver_of s2 = solver_of s).
  { intros s2 E1 E2 E3 E4 E5. unfold solver_of.
    rewrite E1, E2, E3, E4, E5, Hmd, Hir, Har, Hsx, Hu. reflexivity. }
  destruct r' as [[]|e'].
  - destruct Hinit' as (Hu' & _ & Hsx' & Hsn' & Hmd' & Hang' & _ & _ & _ & Hdl' & Hrf'
                        & Hdm' & Hdls' & Hxyz' & Hnev' & Hvec' & _ & _ & _ & Htr').
    injection Hang' as Hir' Har' _ _.
    rewrite (Hsol s') in * by assumption.
    exists s, s', (st ++ [s']). rewrite !lookup_snoc.
    split; [reflexivity|]. split; [simpl; rewrite Htr', Htr; reflexivity|].
    split; [reflexivity|].
    assert (Hx : Survey.x s' = Survey.x s /\ Survey.y s' = Survey.y s /\
                 Survey.z s' = Survey.z s).
    { destruct (is_None (Init.x a));
        destruct Hxyz as (-> & -> & ->), Hxyz' as (-> & -> & ->); auto. }
    destruct Hx as (Hx1 & Hx2 & Hx3).
    unfold same_geometry.
    rewrite Hmd', Hir', Har', Hdl', Hrf', Hdm', Hdls', Hx1, Hx2, Hx3,
            Hmd, Hir, Har, Hdl, Hrf, Hdm, Hdls.
    do 10 (split; [reflexivity|]).
    rewrite Hx1, Hx2, Hx3, Hsx', Hsn', Hir', Har' in *.
    rewrite Hsx, Hsn, Hir, Har in *.
    destruct (is_None (Init.n a)), (is_None (Init.vec a)).
    + destruct Hnev as (pos & Hpos & -> & -> & ->).
      destruct Hnev' as (pos' & Hpos' & -> & -> & ->).
      rewrite Hpos in Hpos'. injection Hpos' as <-.
      rewrite Hvec, Hvec'. auto.
    + destruct Hnev as (pos & Hpos & -> & -> & ->).
      destruct Hnev' as (pos' & Hpos' & -> & -> & ->).
      rewrite Hpos in Hpos'. injection Hpos' as <-.
      rewrite Hvec, Hvec'. auto.
    + destruct Hnev as (-> & -> & ->), Hnev' as (-> & -> & ->).
      rewrite Hvec, Hvec'. auto.
    + destruct Hnev as (-> & -> & ->), Hnev' as (-> & -> & ->).
      rewrite Hvec, Hvec'. auto.
  - exfalso.
    apply stack3_Ok_inv in Hsd as [Hl1 Hl2].
    rewrite Hid, Had, Hmd in *.
    destruct Hinit' as [(_ & _ & Hlen)|[(_ & _ & Hn & Hx & Hstack)|(_ & (em & Hem' & Hne) & _)]].
    + rewrite !length_map in Hlen. tauto.
    + rewrite Hn in Hnev. rewrite Hx in Hxyz.
      destruct Hnev as (pos & Hpos & _). destruct Hxyz as (E1 & E2 & E3).
      rewrite E1, E2, E3 in Hpos. congruence.
    + rewrite Hem' in Hem. destruct Hem as [-> _]. congruence.
Qed.

(** A failing [interpolate_survey] builds nothing: the store is left as
    it is, and the only imported functions it may have called are
    [math.sin] and [get_angles]; the constructor is not reached. *)
Theorem failed_interpolation_builds_nothing (survey : loc) (x : float)
    (index : Z) (st : list Survey.t) (tr : list event)
    (e : exn) (st' : list Survey.t) (tr' : list event) :
  interpolate_survey survey x index st tr = (Err e, st', tr') ->
  st' = st /\
  exists evs,
    tr' = tr ++ evs /\
    forall ev, ev ∈ evs -> ev = CallSin \/ ev = CallGetAngles.
Proof.
  intros Hrun. unfold interpolate_survey, get, math_sin in Hrun.
  run_in Hrun.
  destruct (st !! survey) as [sv|] eqn:Hsv; run_in Hrun.
  2:{ injection Hrun as <- <- <-. split; [reflexivity|].
      exists []. rewrite app_nil_r. split; [reflexivity|].
      intros ev Hev. apply elem_of_nil in Hev. contradiction. }
  repeat (match type of Hrun with
          | context [if ?c then _ else _] => destruct c eqn:?
          | context [match py_index (get_angles ?t) ?i with _ => _ end] =>
              destruct (py_index (get_angles t) i) as [[? ?]|] eqn:?
          | context [match py_index ?l ?i with _ => _ end] =>
              destruct (py_index l i) eqn:?
          | context [match Survey.vec ?v with _ => _ end] =>
              destruct (Survey.vec v) eqn:?
          | context [match stack3_opt ?c0 ?c1 ?c2 with _ => _ end] =>
              destruct (stack3_opt c0 c1 c2) eqn:?
          end; run_in Hrun).
  all: try match type of Hrun with
       | context [Survey ?a ?s ?t] =>
           destruct (Survey_fresh a s t) as
             (s0 & HS & _ & _ & _ & _ & _ & _ & Hx0 & Hn0 & Hv0);
           [reflexivity..|]; rewrite HS in Hrun; run_in Hrun;
           match type of Hrun with
           | context [on _ _ _ ?t'] =>
               destruct (on_min_curve_again st s0 t' Hx0 Hn0 Hv0)
                 as (s1 & Hon & _);
               rewrite Hon in Hrun; run_in Hrun; discriminate Hrun
           end
       end.
  all: injection Hrun as <- <- <-; split; [reflexivity|].
  all: first
         [ exists []; split; [symmetry; apply app_nil_r|];
           intros ev Hev; apply elem_of_nil in Hev; contradiction
         | rewrite <- ?app_assoc; eexists; split; [reflexivity|];
           intros ev Hev; simpl in Hev;
           repeat (apply elem_of_cons in Hev as [->|Hev]; [auto|]);
           apply elem_of_nil in Hev; contradiction ].
Qed.

(** Index -1 is the last entry. *)
Lemma py_index_last {A : Type} (l : list A) :
  py_index l (-1) = last l.
Proof.
  unfold py_index. simpl (0 <=? -1).
  destruct l as [|a l]; [reflexivity|].
  assert (Hle : - Z.of_nat (length (a :: l)) <= -1) by (simpl length; lia).
  rewrite (proj2 (Z.leb_le _ _) Hle).
  rewrite last_lookup. f_equal. simpl length. lia.
Qed.

(** Index -1 passes the index check and addresses the last station: [x]
    is compared with [delta_md[0]] and the dogleg read is [dogleg[0]], the
    entries of the first station; when that dogleg is zero the call
    returns a Survey that starts at the last station, with its angles,
    and ends at [md[-1] + x]. *)
Theorem last_station_index (survey : loc) (x : float)
    (st : list Survey.t) (tr : list event) (sv : Survey.t) (d0 dl0 : float) :
  st !! survey = Some sv ->
  well_formed sv ->
  Survey.md sv <> [] ->
  py_index (Survey.delta_md sv) 0 = Some d0 ->
  PrimFloat.leb x d0 = true ->
  py_index (Survey.dogleg sv) 0 = Some dl0 ->
  PrimFloat.eqb dl0 fzero = true ->
  exists s md_last inc_last azi_last,
    interpolate_survey survey x (-1) st tr
      = (Ok (length st), st ++ [s],
         tr ++ [CallMinCurve; CallGetNev; CallGetVec; CallMinCurve]) /\
    last (Survey.md sv) = Some md_last /\
    last (Survey.inc_rad sv) = Some inc_last /\
    last (Survey.azi_rad sv) = Some azi_last /\
    Survey.md s = [md_last; PrimFloat.add md_last x] /\
    Survey.inc_rad s = [inc_last; inc_last] /\
    Survey.azi_rad s = [azi_last; azi_last].
Proof.
  intros Hsv (Hli & Hla & _ & _ & xyz & nev & Hxyz & Hnev & Hlx & Hln)
         Hne Hd Hle Hdl Hz.
  assert (Hpos : (0 < length (Survey.md sv))%nat).
  { destruct (Survey.md sv); [congruence|simpl; lia]. }
  assert (Hlast : forall (A : Type) (l : list A),
             length l = length (Survey.md sv) -> exists a, py_index l (-1) = Some a).
  { intros A l Hl. rewrite py_index_last.
    destruct l as [|a l] using rev_ind; [simpl in Hl; lia|].
    rewrite last_snoc. eauto. }
  destruct (Hlast _ (Survey.md sv) eq_refl) as [md0 Hmd].
  destruct (Hlast _ (Survey.inc_rad sv) Hli) as [inc0 Hinc].
  destruct (Hlast _ (Survey.azi_rad sv) Hla) as [azi0 Hazi].
  destruct (Hlast _ xyz Hlx) as [pxyz Hpx].
  destruct (Hlast _ nev Hln) as [pnev Hpn].
  destruct (interpolate_survey_tangent_run survey x (-1) st tr sv
              d0 dl0 md0 inc0 azi0 xyz nev pxyz pnev) as [s Hrun];
    try assumption; [lia|].
  pose proof (interpolate_survey_spec _ _ _ _ _ _ _ _ _ Hsv Hrun) as Hspec.
  destruct Hspec as (_ & d & dl & md0' & inc0' & azi0' & inc & azi & xyz' & nev' & s'
                     & _ & _ & Hdl' & Hmd' & Hinc' & Hazi' & _ & _ & _ & Hst & Hmds
                     & Hincs & Hazis & _ & _ & _ & _ & _ & Hbranch).
  apply app_inj_tail in Hst as [_ <-].
  change (-1 + 1) with 0 in Hdl'. rewrite Hdl in Hdl'. injection Hdl' as <-.
  rewrite Hz in Hbranch. destruct Hbranch as (-> & -> & _).
  rewrite Hmd in Hmd'. injection Hmd' as <-.
  rewrite Hinc in Hinc'. injection Hinc' as <-.
  rewrite Hazi in Hazi'. injection Hazi' as <-.
  rewrite py_index_last in Hmd, Hinc, Hazi.
  exists s, md0, inc0, azi0. repeat split; assumption.
Qed.

(** Construction from [md], [inc] and [azi] alone establishes what the
    statements on interpolation ask of their input: when the imported
    functions return one entry per station, the angle arrays, the doglegs,
    the delta-MDs, the positions, the NEV coordinates and the tangent
    vectors of the new instance all have the length of [md]. *)
Theorem constructed_survey_well_formed (a : Init.args)
    (st : list Survey.t) (tr : list event)
    (l : loc) (st' : list Survey.t) (tr' : list event) :
  one_entry_per_station ->
  Init.x a = None -> Init.n a = None -> Init.vec a = None ->
  Survey a st tr = (Ok l, st', tr') ->
  exists s vecs,
    st' !! l = Some s /\
    well_formed s /\
    Survey.vec s = Some vecs /\
    length vecs = length (Survey.md s).
Proof.
  intros (Hmc & Hgn & Hgv) Hx Hn Hv. rewrite Survey_run.
  destruct (__init__ a Survey.blank tr) as [[r s] tr0] eqn:Hinit.
  apply __init___spec in Hinit.
  intros Hrun. destruct r as [[]|e]; [|discriminate].
  injection Hrun as <- <- <-.
  rewrite Hx, Hn, Hv in Hinit. simpl in Hinit.
  destruct Hinit as (_ & _ & _ & _ & _ & _ & _ & _ & Hsr & Hdl & _ & Hdm & _
                     & (Hxs & Hys & Hzs) & (pos & Hpos & Hns & Hes & Hts) & Hvec & _).
  apply stack3_Ok_inv in Hsr as [Hl1 Hl2].
  unfold solver_of in *.
  destruct (Hmc (Survey.md s) (Survey.inc_rad s) (Survey.azi_rad s)
                (Survey.start_xyz s) (Survey.unit s)) as (Hmdl & Hmdm & Hmp).
  exists s, (get_vec (Survey.inc_rad s) (Survey.azi_rad s) false).
  rewrite lookup_snoc. split; [reflexivity|]. split.
  - unfold well_formed. rewrite Hdl, Hdm. do 4 (split; [assumption|]).
    rewrite Hxs, Hys, Hzs in Hpos. rewrite stack3_opt_unstack3 in Hpos.
    injection Hpos as <-.
    exists (MinCurve.poss (MinCurve (Survey.md s) (Survey.inc_rad s)
                             (Survey.azi_rad s) (Survey.start_xyz s) (Survey.unit s))),
           (get_nev (MinCurve.poss (MinCurve (Survey.md s) (Survey.inc_rad s)
                             (Survey.azi_rad s) (Survey.start_xyz s) (Survey.unit s)))
                    (Survey.start_xyz s) (Survey.start_nev s)).
    rewrite Hxs, Hys, Hzs, Hns, Hes, Hts, !stack3_opt_unstack3, Hgn.
    repeat split; assumption.
  - split; [exact Hvec|]. rewrite Hgv. exact Hl1.
Qed.
End Behaviour.

(** ** Further behaviour of the covariance builder *)

(** [make_cov] with [diag=False] raises ValueError when two of its arrays
    have different lengths, neither of them 1: their element-wise product
    does not broadcast. *)
Theorem make_cov_length_mismatch (a b c : array1) :
  (length a <> length b /\ length a <> 1%nat /\ length b <> 1%nat) \/
  (length a <> length c /\ length a <> 1%nat /\ length c <> 1%nat) \/
  (length b <> length c /\ length b <> 1%nat /\ length c <> 1%nat) ->
  make_cov (NdArray a) (NdArray b) (NdArray c) false = Err ValueError.
Proof.
  assert (Hmis : forall u v : array1,
             length u <> length v -> length u <> 1%nat -> length v <> 1%nat ->
             arr_mul u v = Err ValueError).
  { intros u v Hne Hu Hv. unfold arr_mul.
    destruct u as [|u0 [|u1 u]], v as [|v0 [|v1 v]]; simpl in *;
      try congruence.
    destruct (Nat.eqb (length u) (length v)) eqn:Heq; [|reflexivity].
    apply Nat.eqb_eq in Heq. congruence. }
  assert (Herr : forall u v : array1, forall e, arr_mul u v = Err e -> e = ValueError).
  { intros u v e. unfold arr_mul.
    destruct u as [|u0 [|u1 u]], v as [|v0 [|v1 v]]; simpl;
      try discriminate;
      try (destruct (Nat.eqb (length u) (length v))); congruence. }
  intros Hcase. unfold make_cov. rewrite !py_mul_arrays.
  destruct (arr_mul a a) as [aa|e] eqn:Haa; simpl;
    [|apply Herr in Haa; congruence].
  destruct (arr_mul a b) as [ab|e] eqn:Hab; simpl;
    [|apply Herr in Hab; congruence].
  destruct (arr_mul a c) as [ac|e] eqn:Hac; simpl;
    [|apply Herr in Hac; congruence].
  destruct (arr_mul b b) as [bb|e] eqn:Hbb; simpl;
    [|apply Herr in Hbb; congruence].
  destruct (arr_mul b c) as [bc|e] eqn:Hbc; simpl;
    [|apply Herr in Hbc; congruence].
  exfalso.
  destruct Hcase as [(H1 & H2 & H3)|[(H1 & H2 & H3)|(H1 & H2 & H3)]].
  - rewrite (Hmis a b) in Hab by assumption. discriminate.
  - rewrite (Hmis a c) in Hac by assumption. discriminate.
  - rewrite (Hmis b c) in Hbc by assumption. discriminate.
Qed.

(** ** The statements above on the vertical hole of the example *)

Import VerticalHole.

(** C1 on the example: the midpoint of the only interval. *)
Lemma interpolate_survey_two_stations_witness :
  example_store !! 0%nat = Some example_survey /\
  midpoint_run = (Ok 1%nat, midpoint_run.1.2, midpoint_run.2) /\
  exists s,
    midpoint_run.1.2 !! 1%nat = Some s /\
    Survey.md s = [0%float; 50%float] /\
    py_index (Survey.md s) 2 = None.
Proof.
  split; [vm_compute; reflexivity|]. split; [vm_compute; reflexivity|].
  destruct (interpolate_survey_two_stations 0%nat 50%float 0 example_store []
              example_survey 1%nat midpoint_run.1.2 midpoint_run.2)
    as (s & md0 & inc0 & azi0 & inc & azi & Hs & Hmd0 & _ & _ & Hmd & _ & _ & Hno);
    [vm_compute; reflexivity|vm_compute; reflexivity|].
  exists s. split; [exact Hs|]. split; [|exact Hno].
  rewrite Hmd. vm_compute in Hmd0. injection Hmd0 as <-. vm_compute. reflexivity.
Defined.

(** C3 on the example: its interval is a tangent section. *)
Lemma tangent_section_interpolation_witness :
  example_store !! 0%nat = Some example_survey /\
  py_index (Survey.dogleg example_survey) (0 + 1) = Some 0%float /\
  PrimFloat.eqb 0%float fzero = true /\
  midpoint_run = (Ok 1%nat, midpoint_run.1.2, midpoint_run.2) /\
  exists s,
    midpoint_run.1.2 !! 1%nat = Some s /\
    py_index (Survey.inc_rad s) 1 = py_index (Survey.inc_rad example_survey) 0 /\
    py_index (Survey.azi_rad s) 1 = py_index (Survey.azi_rad example_survey) 0 /\
    midpoint_run.2
      = [CallMinCurve; CallGetNev; CallGetVec; CallMinCurve].
Proof.
  do 4 (split; [vm_compute; reflexivity|]).
  destruct (tangent_section_interpolation 0%nat 50%float 0 example_store []
              example_survey 0%float 1%nat midpoint_run.1.2 midpoint_run.2)
    as (s & inc0 & azi0 & Hs & Hinc0 & Hazi0 & Hinc & Hazi & _ & _
        & evs & Htr & -> & _);
    [vm_compute; reflexivity..|].
  exists s. rewrite Hinc, Hazi, Hinc0, Hazi0. repeat split; assumption.
Defined.

(** C5: index -2 is outside [0, n-2], and the call returns a Survey: the
    interpolation between the last two stations. *)
Lemma negative_index_is_accepted :
  length (Survey.md example_survey) = 2%nat /\
  ~ (0 <= -2 <= 2 - 2) /\
  (interpolate_survey 0%nat 50%float (-2) example_store []).1.1 = Ok 1%nat /\
  interpolate_survey 0%nat 50%float (-2) example_store [] = midpoint_run.
Proof.
  split; [vm_compute; reflexivity|]. split; [lia|].
  split; vm_compute; reflexivity.
Qed.

(** C5, as amended, on the example: index 1 = n-1 is refused. *)
Lemma index_check_witness :
  example_store !! 0%nat = Some example_survey /\
  interpolate_survey 0%nat 50%float 1 example_store []
    = (Err IndexOutOfRange, example_store, []).
Proof.
  split; [vm_compute; reflexivity|].
  apply (proj2 (index_check 0%nat 50%float 1 example_store [] example_survey
                  ltac:(vm_compute; reflexivity))).
  vm_compute. discriminate.
Defined.

(** C6 on the example: x = 150 is refused, x = 100 = delta-MD is not. *)
Lemma x_range_check_witness :
  example_store !! 0%nat = Some example_survey /\
  0 < Z.of_nat (length (Survey.md example_survey)) - 1 /\
  py_index (Survey.delta_md example_survey) (0 + 1) = Some 100%float /\
  interpolate_survey 0%nat 150%float 0 example_store []
    = (Err OutOfRange, example_store, []) /\
  (interpolate_survey 0%nat 100%float 0 example_store []).1.1 <> Err OutOfRange.
Proof.
  split; [vm_compute; reflexivity|]. split; [vm_compute; reflexivity|].
  split; [vm_compute; reflexivity|]. split.
  - apply (x_range_check 0%nat 150%float 0 example_store [] example_survey
             100%float); vm_compute; reflexivity.
  - apply (x_range_check 0%nat 100%float 0 example_store [] example_survey
             100%float); vm_compute; reflexivity.
Defined.

(** C9 on the example: the input survey is still at location 0, and the
    result is at location 1, which was free. *)
Lemma interpolate_survey_frame_witness :
  midpoint_run = (Ok 1%nat, midpoint_run.1.2, midpoint_run.2) /\
  example_store !! 0%nat = Some example_survey /\
  midpoint_run.1.2 !! 0%nat = Some example_survey /\
  example_store !! 1%nat = None.
Proof.
  split; [vm_compute; reflexivity|]. split; [vm_compute; reflexivity|].
  destruct (interpolate_survey_frame 0%nat 50%float 0 example_store []
              (Ok 1%nat) midpoint_run.1.2 midpoint_run.2)
    as [Hold Hnew]; [vm_compute; reflexivity|].
  split.
  - apply Hold. vm_compute. reflexivity.
  - apply (Hnew 1%nat). reflexivity.
Defined.

(** C2: the failure comes after the minimum-curvature computation. *)
Lemma min_curve_runs_before_the_check :
  (Survey unrecognized_args [] []).1.1 = Err InvalidConfiguration /\
  (Survey unrecognized_args [] []).2 = [CallMinCurve; CallGetNev; CallGetVec].
Proof. split; vm_compute; reflexivity. Qed.

(** C2, as amended, on the example with the tag ["ISCWSA"]. *)
Lemma unrecognized_error_model_witness :
  Init.error_model unrecognized_args = Some "ISCWSA" /\
  "ISCWSA" <> recognized /\
  exists e st' tr',
    Survey unrecognized_args [] [] = (Err e, st', tr') /\
    (positional_inputs_ok unrecognized_args -> e = InvalidConfiguration).
Proof.
  split; [reflexivity|]. split; [discriminate|].
  destruct (unrecognized_error_model unrecognized_args "ISCWSA" [] [] eq_refl
              ltac:(discriminate))
    as (e & st' & tr' & Hrun & _ & Hok).
  exists e, st', tr'. split; assumption.
Defined.

(** C8 on the example, under the numbered error model: the supplied
    covariances are replaced, and entry [k][j][i] of the stored array is
    entry [i][j][k] of the model's output. *)
Lemma covariance_resolution_witness :
  NumberedModel.numbered_run
    = (Ok 0%nat, NumberedModel.numbered_run.1.2, NumberedModel.numbered_run.2) /\
  Init.cov_hla recognized_args = Some unit_cov /\
  exists s hla,
    NumberedModel.numbered_run.1.2 !! 0%nat = Some s /\
    Survey.cov_hla s = Some hla /\
    has_shape 2 3 3 hla = true /\
    entry hla 1 0 2 = Some 201%float /\
    entry hla 0 2 1 = Some 120%float.
Proof.
  split; [vm_compute; reflexivity|]. split; [reflexivity|].
  destruct (@covariance_resolution NumberedModel.numbered_externals
              recognized_args [] [] 0%nat
              NumberedModel.numbered_run.1.2 NumberedModel.numbered_run.2)
    as (s & Hs & _ & _ & _ & Hhla & _); [vm_compute; reflexivity|].
  destruct (Hhla 2%nat) as (hla & Hc & Hshape & Hent).
  { vm_compute in Hs. injection Hs as <-. vm_compute. reflexivity. }
  exists s, hla. split; [exact Hs|]. split; [exact Hc|].
  split; [exact Hshape|].
  rewrite !Hent. vm_compute in Hs. injection Hs as <-.
  split; vm_compute; reflexivity.
Defined.

(** C10 on the example: [y], [z], [e] and [tvd] stay absent. *)
Lemma position_overrides_witness :
  override_run = (Ok 0%nat, override_run.1.2, override_run.2) /\
  exists s,
    override_run.1.2 !! 0%nat = Some s /\
    Survey.x s = Some [1%float; 2%float] /\
    Survey.y s = None /\ Survey.z s = None /\
    Survey.n s = Some [3%float; 4%float] /\
    Survey.e s = None /\ Survey.tvd s = None.
Proof.
  split; [vm_compute; reflexivity|].
  destruct (position_overrides override_args [] [] 0%nat
              override_run.1.2 override_run.2)
    as (s & Hs & (Hx & Hy & Hz) & (Hn & He & Ht)); [vm_compute; reflexivity|].
  exists s. repeat split; assumption.
Defined.

(** C7 on two stations: arrays give the matrices, lists a TypeError. *)
Lemma make_cov_spec_witness :
  length [1%float; 2%float] = length [3%float; 4%float] /\
  length [3%float; 4%float] = length [5%float; 6%float] /\
  (exists cov,
     make_cov (NdArray [1%float; 2%float]) (NdArray [3%float; 4%float])
              (NdArray [5%float; 6%float]) false = Ok cov /\
     cov !! 1%nat = Some [[4%float; 8%float; 12%float];
                          [8%float; 16%float; 24%float];
                          [12%float; 24%float; 36%float]]) /\
  make_cov (PyList [1%float; 2%float]) (PyList [3%float; 4%float])
           (PyList [5%float; 6%float]) false = Err TypeError.
Proof.
  split; [reflexivity|]. split; [reflexivity|]. split.
  - destruct (make_cov_spec (NdArray [1%float; 2%float])
                (NdArray [3%float; 4%float]) (NdArray [5%float; 6%float])
                false eq_refl eq_refl)
      as (cov & Hcov & _ & Hk).
    exists cov. split; [exact Hcov|].
    destruct (Hk 1%nat 2%float 4%float 6%float eq_refl eq_refl eq_refl)
      as [Hm _].
    rewrite Hm. vm_compute. reflexivity.
  - exact (make_cov_spec (PyList [1%float; 2%float])
             (PyList [3%float; 4%float]) (PyList [5%float; 6%float])
             false eq_refl eq_refl).
Defined.

(** Tangent interpolation succeeds on the example. *)
Lemma tangent_interpolation_succeeds_witness :
  example_store !! 0%nat = Some example_survey /\
  well_formed example_survey /\
  0 <= 0 < Z.of_nat (length (Survey.md example_survey)) - 1 /\
  py_index (Survey.delta_md example_survey) (0 + 1) = Some 100%float /\
  PrimFloat.leb 50%float 100%float = true /\
  py_index (Survey.dogleg example_survey) (0 + 1) = Some 0%float /\
  PrimFloat.eqb 0%float fzero = true /\
  exists s,
    interpolate_survey 0%nat 50%float 0 example_store []
      = (Ok 1%nat, example_store ++ [s],
         [CallMinCurve; CallGetNev; CallGetVec; CallMinCurve]).
Proof.
  assert (Hwf : well_formed example_survey).
  { do 4 (split; [vm_compute; reflexivity|]).
    eexists _, _. split; [vm_compute; reflexivity|].
    split; [vm_compute; reflexivity|]. split; vm_compute; reflexivity. }
  split; [vm_compute; reflexivity|]. split; [exact Hwf|].
  split; [vm_compute; split; [discriminate|reflexivity]|].
  do 4 (split; [vm_compute; reflexivity|]).
  destruct (tangent_interpolation_succeeds 0%nat 50%float 0 example_store []
              example_survey 100%float 0%float) as [s Hs];
    [vm_compute; reflexivity|exact Hwf
    |vm_compute; split; [discriminate|reflexivity]
    |vm_compute; reflexivity..|].
  exists s. exact Hs.
Defined.

(** ** The further statements on the instances above *)

Import Scenarios.

(** [_min_curve] twice on the survey of the example. *)
Lemma min_curve_idempotent_witness :
  _min_curve unsolved_survey []
    = (Ok (), example_survey, [CallMinCurve; CallGetNev; CallGetVec]) /\
  _min_curve example_survey [CallMinCurve; CallGetNev; CallGetVec]
    = (Ok (), example_survey,
       [CallMinCurve; CallGetNev; CallGetVec; CallMinCurve]).
Proof.
  split; [vm_compute; reflexivity|].
  apply (min_curve_idempotent unsolved_survey [] example_survey
           [CallMinCurve; CallGetNev; CallGetVec]).
  vm_compute; reflexivity.
Defined.

(** The attributes of the midpoint survey of the example. *)
Lemma interpolated_survey_attributes_witness :
  example_store !! 0%nat = Some example_survey /\
  midpoint_run = (Ok 1%nat, midpoint_run.1.2, midpoint_run.2) /\
  exists s,
    midpoint_run.1.2 !! 1%nat = Some s /\
    Survey.unit s = "meters" /\
    Survey.deg s = false /\
    Survey.error_model s = None /\
    Survey.cov_hla s = None /\
    Survey.cov_nev s = None.
Proof.
  split; [vm_compute; reflexivity|]. split; [vm_compute; reflexivity|].
  destruct (interpolated_survey_attributes 0%nat 50%float 0 example_store []
              example_survey 1%nat midpoint_run.1.2 midpoint_run.2)
    as (s & xyz & nev & Hs & Hu & Hd & _ & Hem & _ & Hch & Hcn & _);
    [vm_compute; reflexivity|vm_compute; reflexivity|].
  exists s. repeat split; assumption.
Defined.

(** The midpoint survey of the example is a constructed one. *)
Lemma interpolation_is_construction_witness :
  example_store !! 0%nat = Some example_survey /\
  midpoint_run = (Ok 1%nat, midpoint_run.1.2, midpoint_run.2) /\
  exists a tr0,
    Survey a example_store tr0
      = (Ok 1%nat, midpoint_run.1.2,
         tr0 ++ [CallMinCurve; CallGetNev; CallGetVec]) /\
    midpoint_run.2 = tr0 ++ [CallMinCurve; CallGetNev; CallGetVec; CallMinCurve].
Proof.
  split; [vm_compute; reflexivity|]. split; [vm_compute; reflexivity|].
  destruct (interpolation_is_construction 0%nat 50%float 0 example_store []
              example_survey 1%nat midpoint_run.1.2 midpoint_run.2)
    as (md0 & inc0 & azi0 & inc & azi & xyz & nev & pxyz & pnev & tr0
        & _ & _ & _ & _ & _ & _ & _ & Hs & Htr);
    [vm_compute; reflexivity|vm_compute; reflexivity|].
  exists (station_pair md0 50%float inc0 inc azi0 azi pxyz pnev), tr0.
  split; assumption.
Defined.

(** The calls of the construction with the recognized tag. *)
Lemma construction_calls_witness :
  recognized_run = (Ok 0%nat, recognized_run.1.2, recognized_run.2) /\
  recognized_run.2 = [CallMinCurve; CallGetNev; CallGetVec; CallErrorModel].
Proof.
  split; [vm_compute; reflexivity|].
  apply (construction_calls recognized_args [] [] 0%nat
           recognized_run.1.2 recognized_run.2).
  vm_compute; reflexivity.
Defined.

(** Supplied tangent vectors on the example. *)
Lemma tangent_vector_override_witness :
  supplied_vec_run = (Ok 0%nat, supplied_vec_run.1.2, supplied_vec_run.2) /\
  exists s,
    supplied_vec_run.1.2 !! 0%nat = Some s /\
    Survey.vec s = Some supplied_vec.
Proof.
  split; [vm_compute; reflexivity|].
  destruct (tangent_vector_override supplied_vec_args [] [] 0%nat
              supplied_vec_run.1.2 supplied_vec_run.2)
    as (s & Hs & Hv & _); [vm_compute; reflexivity|].
  exists s. split; assumption.
Defined.

(** The angle arrays and tables of the survey of the example. *)
Lemma construction_angle_tables_witness :
  Survey example_args [] []
    = (Ok 0%nat, example_store, [CallMinCurve; CallGetNev; CallGetVec]) /\
  exists s,
    example_store !! 0%nat = Some s /\
    Survey.inc_deg s = [0%float; 0%float] /\
    length (Survey.survey_rad s) = length (Survey.md s).
Proof.
  split; [vm_compute; reflexivity|].
  destruct (construction_angle_tables example_args [] [] 0%nat example_store
              [CallMinCurve; CallGetNev; CallGetVec])
    as (s & Hs & _ & (Hid & _) & _ & _ & _ & _ & _ & Hlr & _);
    [vm_compute; reflexivity|].
  exists s. repeat split; assumption.
Defined.

(** The survey of the example has arrays of one length. *)
Lemma example_well_formed : well_formed example_survey.
Proof.
  do 4 (split; [vm_compute; reflexivity|]).
  eexists _, _. split; [vm_compute; reflexivity|].
  split; [vm_compute; reflexivity|]. split; vm_compute; reflexivity.
Defined.

(** Index -2 on the two stations of the example is index 0. *)
Lemma negative_index_wraps_witness :
  example_store !! 0%nat = Some example_survey /\
  well_formed example_survey /\
  - Z.of_nat (length (Survey.md example_survey)) <= -2 < -1 /\
  interpolate_survey 0%nat 50%float (-2) example_store []
  = interpolate_survey 0%nat 50%float
      (-2 + Z.of_nat (length (Survey.md example_survey))) example_store [].
Proof.
  split; [vm_compute; reflexivity|]. split; [exact example_well_formed|].
  split; [vm_compute; split; [discriminate|reflexivity]|].
  apply (negative_index_wraps 0%nat 50%float (-2) example_store []
           example_survey).
  - vm_compute; reflexivity.
  - exact example_well_formed.
  - intros vecs Hv. vm_compute in Hv. injection Hv as <-. reflexivity.
  - vm_compute. split; [discriminate|reflexivity].
Defined.

(** Index -4 on the two stations of the example. *)
Lemma index_below_every_station_witness :
  example_store !! 0%nat = Some example_survey /\
  Survey.md example_survey <> [] /\
  -4 < - Z.of_nat (length (Survey.md example_survey)) /\
  interpolate_survey 0%nat 50%float (-4) example_store []
    = (Err IndexError, example_store, []).
Proof.
  split; [vm_compute; reflexivity|]. split; [vm_compute; discriminate|].
  split; [vm_compute; reflexivity|].
  apply (index_below_every_station 0%nat 50%float (-4) example_store []
           example_survey).
  - vm_compute; reflexivity.
  - vm_compute; discriminate.
  - vm_compute; reflexivity.
  - vm_compute; reflexivity.
  - vm_compute; reflexivity.
Defined.

(** Index 1 in the midpoint survey of the example. *)
Lemma result_has_one_interval_witness :
  example_store !! 0%nat = Some example_survey /\
  midpoint_run = (Ok 1%nat, midpoint_run.1.2, midpoint_run.2) /\
  interpolate_survey 1%nat 25%float 1 midpoint_run.1.2 []
    = (Err IndexOutOfRange, midpoint_run.1.2, []).
Proof.
  split; [vm_compute; reflexivity|]. split; [vm_compute; reflexivity|].
  apply (result_has_one_interval 0%nat 50%float 0 example_store []
           example_survey 1%nat midpoint_run.1.2 midpoint_run.2).
  - vm_compute; reflexivity.
  - vm_compute; reflexivity.
  - lia.
Defined.

(** Two and three 1-sigma values. *)
Lemma make_cov_length_mismatch_witness :
  length [1%float; 2%float] <> length [3%float; 4%float; 5%float] /\
  make_cov (NdArray [1%float; 2%float]) (NdArray [3%float; 4%float; 5%float])
           (NdArray [6%float; 7%float]) false = Err ValueError.
Proof.
  split; [simpl; lia|].
  apply make_cov_length_mismatch. left. simpl. lia.
Defined.

(** The midpoint of the curved interval. *)
Lemma curved_section_interpolation_witness :
  curved_store !! 0%nat = Some curved_survey /\
  py_index (Survey.dogleg curved_survey) (0 + 1) = Some 0.5%float /\
  PrimFloat.eqb 0.5%float fzero = false /\
  exists s,
    curved_run
      = (Ok 1%nat, curved_store ++ [s],
         [CallSin; CallSin; CallSin; CallSin; CallGetAngles;
          CallMinCurve; CallGetNev; CallGetVec; CallMinCurve]) /\
    Survey.md s = [0%float; 50%float] /\
    Survey.inc_rad s = [0%float; 0%float].
Proof.
  do 3 (split; [vm_compute; reflexivity|]).
  destruct (curved_section_interpolation 0%nat 50%float 0 curved_store []
              curved_survey 100%float 0.5%float 0%float 0%float
              [(fzero, fzero, 1%float); (fzero, fzero, 1%float)]
              (fzero, fzero, 1%float) (fzero, fzero, 1%float))
    as (s & md0 & inc0 & azi0 & Hrun & Hmd0 & Hinc0 & _ & Hmd & Hinc & _).
  - vm_compute; reflexivity.
  - do 4 (split; [vm_compute; reflexivity|]).
    eexists _, _. split; [vm_compute; reflexivity|].
    split; [vm_compute; reflexivity|]. split; vm_compute; reflexivity.
  - vm_compute. split; [discriminate|reflexivity].
  - vm_compute; reflexivity.
  - vm_compute; reflexivity.
  - vm_compute; reflexivity.
  - vm_compute; reflexivity.
  - vm_compute; reflexivity.
  - vm_compute; reflexivity.
  - vm_compute; reflexivity.
  - vm_compute; reflexivity.
  - vm_compute; reflexivity.
  - vm_compute; reflexivity.
  - vm_compute; reflexivity.
  - vm_compute; reflexivity.
  - exists s. split; [exact Hrun|].
    vm_compute in Hmd0. injection Hmd0 as <-.
    vm_compute in Hinc0. injection Hinc0 as <-.
    rewrite Hmd, Hinc. split; vm_compute; reflexivity.
Defined.

(** The survey of the example from radians. *)
Lemma geometry_from_radians_witness :
  Init.deg example_args = true /\
  Survey example_args [] []
    = (Ok 0%nat, example_store, [CallMinCurve; CallGetNev; CallGetVec]) /\
  exists s' st'',
    Survey (in_radians example_args) [] []
      = (Ok 0%nat, st'', [CallMinCurve; CallGetNev; CallGetVec]) /\
    st'' !! 0%nat = Some s' /\
    Survey.x s' = Survey.x example_survey.
Proof.
  split; [reflexivity|]. split; [vm_compute; reflexivity|].
  destruct (geometry_from_radians example_args [] [] 0%nat example_store
              [CallMinCurve; CallGetNev; CallGetVec])
    as (s & s' & st'' & Hs & Hrun & Hs' & Hgeo);
    [reflexivity|vm_compute; reflexivity|].
  exists s', st''. split; [exact Hrun|]. split; [exact Hs'|].
  destruct Hgeo as (_ & _ & _ & _ & _ & _ & _ & Hx & _).
  rewrite Hx. vm_compute in Hs. injection Hs as <-. reflexivity.
Defined.

(** An infinite [x] on the curved interval: the ValueError of [math.sin],
    with nothing built and nothing called. *)
Lemma failed_interpolation_builds_nothing_witness :
  interpolate_survey 0%nat neg_infinity 0 curved_store []
    = (Err ValueError, curved_store, []) /\
  exists evs,
    [] = [] ++ evs /\
    forall ev, ev ∈ evs -> ev = CallSin \/ ev = CallGetAngles.
Proof.
  split; [vm_compute; reflexivity|].
  apply (failed_interpolation_builds_nothing 0%nat neg_infinity 0 curved_store []
           ValueError curved_store []).
  vm_compute; reflexivity.
Defined.

(** The imported functions of the vertical hole return one entry per
    station. *)
Lemma deltas_length (prev : float) (md : array1) :
  length (deltas prev md) = length md.
Proof. revert prev. induction md as [|m md IH]; intros prev; simpl; auto. Qed.

Lemma vertical_hole_one_entry_per_station : one_entry_per_station.
Proof.
  split; [|split].
  - intros md inc azi start u. simpl. unfold min_curve. simpl.
    rewrite !length_map, deltas_length. auto.
  - intros pos sxyz snev. simpl. unfold nev_of. now rewrite length_map.
  - intros inc azi deg. simpl. now rewrite length_map.
Qed.

(** Index -1 on the example: ten metres back from the last station. *)
Lemma last_station_index_witness :
  example_store !! 0%nat = Some example_survey /\
  py_index (Survey.delta_md example_survey) 0 = Some 0%float /\
  PrimFloat.leb (-10)%float 0%float = true /\
  exists s,
    interpolate_survey 0%nat (-10)%float (-1) example_store []
      = (Ok 1%nat, example_store ++ [s],
         [CallMinCurve; CallGetNev; CallGetVec; CallMinCurve]) /\
    Survey.md s = [100%float; 90%float].
Proof.
  do 3 (split; [vm_compute; reflexivity|]).
  destruct (last_station_index 0%nat (-10)%float example_store []
              example_survey 0%float 0%float)
    as (s & md_last & inc_last & azi_last & Hrun & Hlast & _ & _ & Hmd & _).
  - vm_compute; reflexivity.
  - exact example_well_formed.
  - vm_compute; discriminate.
  - vm_compute; reflexivity.
  - vm_compute; reflexivity.
  - vm_compute; reflexivity.
  - vm_compute; reflexivity.
  - exists s. split; [exact Hrun|].
    vm_compute in Hlast. injection Hlast as <-.
    rewrite Hmd. vm_compute. reflexivity.
Defined.

(** The survey of the example, as constructed. *)
Lemma constructed_survey_well_formed_witness :
  one_entry_per_station /\
  Survey example_args [] []
    = (Ok 0%nat, example_store, [CallMinCurve; CallGetNev; CallGetVec]) /\
  exists s,
    example_store !! 0%nat = Some s /\ well_formed s.
Proof.
  split; [exact vertical_hole_one_entry_per_station|].
  split; [vm_compute; reflexivity|].
  destruct (constructed_survey_well_formed example_args [] [] 0%nat
              example_store [CallMinCurve; CallGetNev; CallGetVec])
    as (s & vecs & Hs & Hwf & _).
  - exact vertical_hole_one_entry_per_station.
  - reflexivity.
  - reflexivity.
  - reflexivity.
  - vm_compute; reflexivity.
  - exists s. split; assumption.
Defined.

(** The survey of the example meets the requirements; an inclination
    array shorter than [md] is refused before any call. *)
Lemma construction_requirements_witness :
  Survey example_args [] []
    = (Ok 0%nat, example_store, [CallMinCurve; CallGetNev; CallGetVec]) /\
  positional_inputs_ok example_args /\
  tag_ok example_args /\
  ~ (length [0%float] = length [0%float; 100%float] /\
     length [0%float; 0%float] = length [0%float; 100%float]) /\
  exists st',
    Survey (Init.defaults [0%float; 100%float] [0%float] [0%float; 0%float])
           [] []
      = (Err ValueError, st', []).
Proof.
  split; [vm_compute; reflexivity|].
  destruct (construction_requirements example_args [] []) as [Honly _].
  destruct (Honly 0%nat example_store [CallMinCurve; CallGetNev; CallGetVec])
    as [Hpos Htag]; [vm_compute; reflexivity|].
  split; [exact Hpos|]. split; [exact Htag|].
  split; [simpl; lia|].
  apply (construction_requirements
           (Init.defaults [0%float; 100%float] [0%float] [0%float; 0%float])
           [] []).
  simpl. lia.
Defined.
